(** * Behavioural telemetry and the checkout decision gate

    A shallow embedding of three pieces of the application:

    - [Tracker]: the class [BehaviorTracker] of [src/utils/behaviorTracking.js]
      (the telemetry recorder and the feature extractor);
    - [Checkout]: the functions [runAIAnalysis] and [handleSubmit] of the
      checkout component (the decision gate);
    - [Route]: the handler [POST] of [src/app/api/save-training-data/route.js]
      (the telemetry ingestion endpoint).

    JavaScript numbers are IEEE 754 binary64 values; they are modelled by
    Rocq's primitive floats, which are the same format with the same rounding,
    so that [0 / 0] really is [NaN] here.  Quantities that the program only
    ever computes as integers (clock readings of [Date.now()], counters,
    accumulated milliseconds) are kept in [Z] and converted when they flow
    into a floating-point computation or into an exported object. *)

From Stdlib Require Import ZArith List String Bool Lia.
From Stdlib Require Import Floats.PrimFloat Numbers.Cyclic.Int63.Uint63.
From Stdlib Require Floats.SpecFloat Floats.FloatOps Floats.FloatAxioms.
Import ListNotations.

Open Scope string_scope.
Open Scope list_scope.
Open Scope Z_scope.

(* ------------------------------------------------------------------ *)
(** ** JavaScript values *)

Module Js.

(** The values the modelled code manipulates.  An object is the list of its
    own properties in insertion order. *)
#[local] Unset Elimination Schemes.
Inductive value : Type :=
| VUndefined
| VNull
| VBool (b : bool)
| VNum (x : float)
| VStr (s : string)
| VObj (fields : list (string * value)).
#[local] Set Elimination Schemes.

(** The integer [z] as a number.  Exact for [|z| <= 2^53]; every clock
    reading, duration and counter of a session is far below that. *)
Definition float_of_Z (z : Z) : float :=
  match z with
  | Z0 => 0%float
  | Zpos _ => PrimFloat.of_uint63 (Uint63.of_Z z)
  | Zneg p => PrimFloat.opp (PrimFloat.of_uint63 (Uint63.of_Z (Zpos p)))
  end.

Definition num (z : Z) : value := VNum (float_of_Z z).

Definition is_nan (x : float) : bool := negb (PrimFloat.eqb x x).

(** ToBoolean: [undefined], [null], [false], [+0], [-0], [NaN] and the empty
    string are falsy, everything else is truthy. *)
Definition truthy (v : value) : bool :=
  match v with
  | VUndefined | VNull => false
  | VBool b => b
  | VNum x => negb (PrimFloat.eqb x 0%float) && negb (is_nan x)
  | VStr s => negb (String.eqb s "")
  | VObj _ => true
  end.

(** [a || b] and [a && b] (both yield one of their operands). *)
Definition or_else (a b : value) : value := if truthy a then a else b.
Definition and_then (a b : value) : value := if truthy a then b else a.

Fixpoint lookup (k : string) (fields : list (string * value)) : option value :=
  match fields with
  | [] => None
  | (k', v) :: rest => if String.eqb k k' then Some v else lookup k rest
  end.

(** The property read [v.k] for a name [k] that is not on any prototype: the
    own property of an object, [undefined] on a primitive.  (On [undefined]
    and [null] JavaScript throws; the callers below that can meet [null]
    test for it before they read.) *)
Definition prop (v : value) (k : string) : value :=
  match v with
  | VObj fields => match lookup k fields with Some x => x | None => VUndefined end
  | _ => VUndefined
  end.

(** [Object.keys(v)]. *)
Definition keys (v : value) : list string :=
  match v with
  | VObj fields => map fst fields
  | _ => []
  end.

(** [s.length] of a text: the number of its UTF-16 code units.  A string
    holds the UTF-8 bytes of the text; a code point of one, two or three
    bytes is one unit, a code point of four bytes is two units, and a
    continuation byte adds nothing. *)
Definition units16 (c : Ascii.ascii) : nat :=
  let b := Ascii.nat_of_ascii c in
  if (b <? 128)%nat then 1%nat
  else if (b <? 192)%nat then 0%nat
  else if (b <? 240)%nat then 1%nat
  else 2%nat.

Fixpoint length16 (s : string) : nat :=
  match s with
  | EmptyString => 0%nat
  | String c rest => (units16 c + length16 rest)%nat
  end.

(** A number that is a proper (non-NaN) number. *)
Definition is_number (v : value) : bool :=
  match v with
  | VNum x => negb (is_nan x)
  | _ => false
  end.

End Js.

(* ------------------------------------------------------------------ *)
(** ** The telemetry recorder: class [BehaviorTracker] *)

Module Tracker.
Import Js.

(** An entry of [ktpKeystrokeData]. *)
Record KeystrokeEvent : Type := mkKeystroke {
  fieldId   : string;
  eventType : string;          (* 'keydown', 'keyup', 'paste' *)
  timestamp : Z;
  value     : string;
  length    : nat
}.

(** An entry of [mousePositions]. *)
Record MouseSample : Type := mkSample {
  x  : float;
  y  : float;
  ts : Z
}.

(** A value that [fieldEditCounts] holds: a count, or NaN. *)
Inductive count : Type :=
| Count (n : Z)
| NotANumber.

(** The fields of a [BehaviorTracker] instance.  [seatHoverStartTime] is
    [null] ([None]) or a clock reading; [fieldEditCounts] is the object used
    as a map from field identifier to count. *)
Record BehaviorTracker : Type := mkTracker {
  sessionStartTime   : Z;
  ktpKeystrokeData   : list KeystrokeEvent;
  fieldEditCounts    : list (string * count);
  mousePositions     : list MouseSample;
  seatHoverStartTime : option Z;
  seatHesitationTime : Z;
  totalClicks        : Z;
  lastMousePosition  : float * float
}.

(** [new BehaviorTracker()] when [Date.now()] reads [now]. *)
Definition constructor (now : Z) : BehaviorTracker :=
  {| sessionStartTime   := now;
     ktpKeystrokeData   := [];
     fieldEditCounts    := [];
     mousePositions     := [];
     seatHoverStartTime := None;
     seatHesitationTime := 0;
     totalClicks        := 0;
     lastMousePosition  := (0%float, 0%float) |}.

(** *** Methods as state transformers

    A method runs against the instance [this] and may assign to its fields:
    it is a function from the instance to a result and the instance
    afterwards.  Each call of [Date.now()] is an argument [now]. *)

Definition M (A : Type) : Type := BehaviorTracker -> A * BehaviorTracker.

Definition ret {A} (a : A) : M A := fun s => (a, s).
Definition bind {A B} (m : M A) (k : A -> M B) : M B :=
  fun s => let (a, s') := m s in k a s'.
Definition gets {A} (f : BehaviorTracker -> A) : M A := fun s => (f s, s).
Definition modify (f : BehaviorTracker -> BehaviorTracker) : M unit :=
  fun s => (tt, f s).

Notation "x <- m ;; k" := (bind m (fun x => k))
  (at level 61, m at next level, right associativity).
Notation "m ;;; k" := (bind m (fun _ => k))
  (at level 61, right associativity).

(** The instance after a method call, and the value it returned. *)
Definition exec {A} (m : M A) (s : BehaviorTracker) : BehaviorTracker := snd (m s).
Definition eval {A} (m : M A) (s : BehaviorTracker) : A := fst (m s).

(** Field assignments. *)
Definition set_ktpKeystrokeData (d : list KeystrokeEvent) (s : BehaviorTracker) :=
  mkTracker (sessionStartTime s) d (fieldEditCounts s) (mousePositions s)
            (seatHoverStartTime s) (seatHesitationTime s) (totalClicks s)
            (lastMousePosition s).
Definition set_fieldEditCounts (c : list (string * count)) (s : BehaviorTracker) :=
  mkTracker (sessionStartTime s) (ktpKeystrokeData s) c (mousePositions s)
            (seatHoverStartTime s) (seatHesitationTime s) (totalClicks s)
            (lastMousePosition s).
Definition set_mousePositions (p : list MouseSample) (s : BehaviorTracker) :=
  mkTracker (sessionStartTime s) (ktpKeystrokeData s) (fieldEditCounts s) p
            (seatHoverStartTime s) (seatHesitationTime s) (totalClicks s)
            (lastMousePosition s).
Definition set_seatHoverStartTime (t : option Z) (s : BehaviorTracker) :=
  mkTracker (sessionStartTime s) (ktpKeystrokeData s) (fieldEditCounts s)
            (mousePositions s) t (seatHesitationTime s) (totalClicks s)
            (lastMousePosition s).
Definition set_seatHesitationTime (h : Z) (s : BehaviorTracker) :=
  mkTracker (sessionStartTime s) (ktpKeystrokeData s) (fieldEditCounts s)
            (mousePositions s) (seatHoverStartTime s) h (totalClicks s)
            (lastMousePosition s).
Definition set_totalClicks (c : Z) (s : BehaviorTracker) :=
  mkTracker (sessionStartTime s) (ktpKeystrokeData s) (fieldEditCounts s)
            (mousePositions s) (seatHoverStartTime s) (seatHesitationTime s) c
            (lastMousePosition s).

(** **** 1. Session time *)

Definition getSessionTime (now : Z) : M Z :=
  gets (fun this => now - sessionStartTime this).

(** **** 2. Keystroke dynamics of the KTP number field *)

Definition trackKTPKeystroke (now : Z) (fieldId eventType value : string) : M unit :=
  let timestamp := now in
  modify (fun this =>
    set_ktpKeystrokeData
      (ktpKeystrokeData this ++
         [mkKeystroke fieldId eventType timestamp value (length16 value)])
      this).

Definition noKeystroke : KeystrokeEvent := mkKeystroke "" "" 0 "" 0.

(** The [for] loop that fills [intervals]: index [i] runs from [1] to
    [keydownEvents.length - 1].  Both operands of the subtraction are clock
    readings, so the difference is an integer and enters the floating-point
    computation exactly. *)
Definition keystrokeIntervals (keydownEvents : list KeystrokeEvent) : list float :=
  map (fun i => float_of_Z (timestamp (nth i keydownEvents noKeystroke)
                            - timestamp (nth (i - 1) keydownEvents noKeystroke)))
      (seq 1 (List.length keydownEvents - 1)).

(** [Math.pow(v, 2)]. *)
Definition pow2 (v : float) : float := (v * v)%float.

Definition getKTPKeystrokeDynamics : M Js.value :=
  data <- gets ktpKeystrokeData ;;
  if (List.length data <? 2)%nat then ret (VNum 0%float) else
  let keydownEvents := filter (fun e => String.eqb (eventType e) "keydown") data in
  if (List.length keydownEvents <? 2)%nat then ret (VNum 0%float) else
  let intervals := keystrokeIntervals keydownEvents in
  let n := float_of_Z (Z.of_nat (List.length intervals)) in
  let avgInterval := (fold_left (fun a b => a + b) intervals 0 / n)%float in
  let variance :=
    (fold_left (fun sum val => sum + pow2 (val - avgInterval)) intervals 0 / n)%float in
  ret (VObj
    [ ("averageInterval", VNum avgInterval);
      ("variance", VNum variance);
      ("totalTime",
        num (timestamp (nth (List.length keydownEvents - 1) keydownEvents noKeystroke)
             - timestamp (nth 0 keydownEvents noKeystroke)));
      ("pasteDetected",
        VBool (existsb (fun e => String.eqb (eventType e) "paste") data)) ]).

(** **** 3. Field edits *)

(** [fieldEditCounts] is a plain object ([{}]): besides its own properties
    it has the ones it inherits from [Object.prototype].  Read on an object
    with no own property of that name, each of these names yields the
    inherited function (for [__proto__], the prototype object): a value that
    is truthy, and that is NaN as a number. *)
Definition objectPrototype : list string :=
  [ "constructor"; "__defineGetter__"; "__defineSetter__"; "hasOwnProperty";
    "__lookupGetter__"; "__lookupSetter__"; "isPrototypeOf";
    "propertyIsEnumerable"; "toString"; "valueOf"; "__proto__";
    "toLocaleString" ].

Definition inherited (k : string) : bool := existsb (String.eqb k) objectPrototype.

(** The own properties, in insertion order. *)
Fixpoint assign (k : string) (v : count) (o : list (string * count))
  : list (string * count) :=
  match o with
  | [] => [(k, v)]
  | (k', v') :: rest =>
      if String.eqb k k' then (k', v) :: rest else (k', v') :: assign k v rest
  end.

Fixpoint read (k : string) (o : list (string * count)) : option count :=
  match o with
  | [] => None
  | (k', v) :: rest => if String.eqb k k' then Some v else read k rest
  end.

(** What [this.fieldEditCounts[fieldId]] reads: an own property, else an
    inherited one, else [undefined]. *)
Inductive slot : Type :=
| Own (c : count)
| Inherited
| Absent.

Definition get (k : string) (o : list (string * count)) : slot :=
  match read k o with
  | Some c => Own c
  | None => if inherited k then Inherited else Absent
  end.

(** [this.fieldEditCounts[fieldId] = v] for a number [v]: the own property
    is set; but [__proto__] is an inherited setter, which ignores a number,
    and no own property appears. *)
Definition put (k : string) (v : count) (o : list (string * count))
  : list (string * count) :=
  if String.eqb k "__proto__" then o else assign k v o.

(** [!this.fieldEditCounts[fieldId]]: [undefined], 0 and NaN are falsy. *)
Definition noCount (v : slot) : bool :=
  match v with
  | Own (Count n) => n =? 0
  | Own NotANumber => true
  | Inherited => false
  | Absent => true
  end.

(** The number that [v++] stores: [v + 1] for a count, NaN for anything
    else. *)
Definition incremented (v : slot) : count :=
  match v with
  | Own (Count n) => Count (n + 1)
  | Own NotANumber | Inherited | Absent => NotANumber
  end.

Definition trackFieldEdit (fieldId : string) : M unit :=
  v <- gets (fun this => get fieldId (fieldEditCounts this)) ;;
  (if noCount v
   then modify (fun this =>
          set_fieldEditCounts (put fieldId (Count 0) (fieldEditCounts this)) this)
   else ret tt) ;;;
  modify (fun this =>
    set_fieldEditCounts
      (put fieldId (incremented (get fieldId (fieldEditCounts this)))
           (fieldEditCounts this))
      this).

(** [a + b] on counts. *)
Definition plus (a b : count) : count :=
  match a, b with
  | Count x, Count y => Count (x + y)
  | _, _ => NotANumber
  end.

Definition getTotalFieldEdits : M count :=
  gets (fun this => fold_left plus (map snd (fieldEditCounts this)) (Count 0)).

(** A count as a number. *)
Definition numberOf (c : count) : Js.value :=
  match c with
  | Count n => num n
  | NotANumber => VNum PrimFloat.nan
  end.

(** **** 4. Mouse movement *)

Definition trackMouseMovement (now : Z) (x y : float) : M unit :=
  let timestamp := now in
  modify (fun this =>
    set_mousePositions (mousePositions this ++ [mkSample x y timestamp]) this) ;;;
  len <- gets (fun this => List.length (mousePositions this)) ;;
  (* Keep only last 100 positions *)
  if (100 <? len)%nat
  then modify (fun this => set_mousePositions (tl (mousePositions this)) this)
  else ret tt.

Definition noSample : MouseSample := mkSample 0%float 0%float 0.

(** [Math.PI], the binary64 value nearest to pi. *)
Definition PI : float := 0x1.921fb54442d18p+1%float.

Section WithAtan2.

(** [Math.atan2] is a function of the host's numeric library. *)
Variable atan2 : float -> float -> float.

(** One iteration of the loop of [getMouseMovementEntropy], at index [i], on
    the pair of accumulators [(totalDistance, totalAngleChange)]. *)
Definition mouseStep (positions : list MouseSample) (acc : float * float) (i : nat)
  : float * float :=
  let '(totalDistance, totalAngleChange) := acc in
  let prev := nth (i - 1) positions noSample in
  let curr := nth i positions noSample in
  let distance := PrimFloat.sqrt (pow2 (x curr - x prev) + pow2 (y curr - y prev))%float in
  let totalDistance := (totalDistance + distance)%float in
  if (1 <? i)%nat then
    let prevPrev := nth (i - 2) positions noSample in
    let angle1 := atan2 (y prev - y prevPrev)%float (x prev - x prevPrev)%float in
    let angle2 := atan2 (y curr - y prev)%float (x curr - x prev)%float in
    let angleChange := PrimFloat.abs (angle2 - angle1)%float in
    (* Normalize angle change to 0-pi *)
    let angleChange :=
      if (PI <? angleChange)%float then (2 * PI - angleChange)%float else angleChange in
    (totalDistance, (totalAngleChange + angleChange)%float)
  else (totalDistance, totalAngleChange).

Definition getMouseMovementEntropy : M Js.value :=
  positions <- gets mousePositions ;;
  if (List.length positions <? 2)%nat then ret (VNum 0%float) else
  let '(totalDistance, totalAngleChange) :=
    fold_left (mouseStep positions) (seq 1 (List.length positions - 1))
              (0%float, 0%float) in
  let avgAngleChange :=
    (totalAngleChange / float_of_Z (Z.of_nat (List.length positions) - 2))%float in
  ret (VObj
    [ ("totalDistance", VNum totalDistance);
      ("averageAngleChange", VNum avgAngleChange);
      ("smoothness", VNum avgAngleChange) ]).

(** **** 5. Seat selection hesitation *)

(** Truthiness of [this.seatHoverStartTime]: [null] and [0] are falsy. *)
Definition hovering (t : option Z) : bool :=
  match t with
  | Some t0 => negb (t0 =? 0)
  | None => false
  end.

Definition startSeatHover (now : Z) : M unit :=
  t <- gets seatHoverStartTime ;;
  if negb (hovering t)
  then modify (set_seatHoverStartTime (Some now))
  else ret tt.

Definition endSeatHover (now : Z) : M unit :=
  t <- gets seatHoverStartTime ;;
  match t with
  | Some t0 =>
      if hovering t then
        modify (fun this =>
          set_seatHesitationTime (seatHesitationTime this + (now - t0)) this) ;;;
        modify (set_seatHoverStartTime None)
      else ret tt
  | None => ret tt
  end.

Definition getSeatHesitationTime : M Z := gets seatHesitationTime.

(** **** 6. Clicks *)

Definition trackClick : M unit :=
  modify (fun this => set_totalClicks (totalClicks this + 1) this).

Definition getTotalClicks : M Z := gets totalClicks.

(** **** All metrics, and the flattened export *)

Definition getAllMetrics (now : Z) : M Js.value :=
  ktpDynamics <- getKTPKeystrokeDynamics ;;
  mouseEntropy <- getMouseMovementEntropy ;;
  sessionTime <- getSessionTime now ;;
  seatHesitation <- getSeatHesitationTime ;;
  fieldEditCount <- getTotalFieldEdits ;;
  clicks <- getTotalClicks ;;
  ret (VObj
    [ ("sessionTime", num sessionTime);
      ("seatHesitationTime", num seatHesitation);
      ("ktpKeystrokeDynamics", ktpDynamics);
      ("fieldEditCount", numberOf fieldEditCount);
      ("mouseMovementEntropy", mouseEntropy);
      ("totalClicks", num clicks) ]).

Definition exportForML (now : Z) : M Js.value :=
  metrics <- getAllMetrics now ;;
  let ktpDynamics := prop metrics "ktpKeystrokeDynamics" in
  let mouseEntropy := prop metrics "mouseMovementEntropy" in
  ret (VObj
    [ ("session_time_ms", prop metrics "sessionTime");
      ("seat_hesitation_time_ms", prop metrics "seatHesitationTime");
      ("ktp_avg_keystroke_interval_ms",
         or_else (prop ktpDynamics "averageInterval") (VNum 0%float));
      ("ktp_keystroke_variance",
         or_else (prop ktpDynamics "variance") (VNum 0%float));
      ("ktp_total_entry_time_ms",
         or_else (prop ktpDynamics "totalTime") (VNum 0%float));
      ("ktp_paste_detected",
         if truthy (prop ktpDynamics "pasteDetected") then VNum 1%float else VNum 0%float);
      ("field_edit_count", prop metrics "fieldEditCount");
      ("mouse_total_distance",
         or_else (prop mouseEntropy "totalDistance") (VNum 0%float));
      ("mouse_smoothness",
         or_else (prop mouseEntropy "smoothness") (VNum 0%float));
      ("total_clicks", prop metrics "totalClicks") ]).

End WithAtan2.

(** *** Sessions as sequences of recorder calls *)

(** The calls that change a recorder, each with the clock reading it sees. *)
Inductive call : Type :=
| KTPKeystroke (now : Z) (fieldId eventType value : string)
| FieldEdit (fieldId : string)
| MouseMovement (now : Z) (x y : float)
| StartSeatHover (now : Z)
| EndSeatHover (now : Z)
| Click.

Definition perform (c : call) : M unit :=
  match c with
  | KTPKeystroke now f e v => trackKTPKeystroke now f e v
  | FieldEdit f => trackFieldEdit f
  | MouseMovement now x y => trackMouseMovement now x y
  | StartSeatHover now => startSeatHover now
  | EndSeatHover now => endSeatHover now
  | Click => trackClick
  end.

(** The recorder after the calls [cs], made in that order. *)
Definition run (cs : list call) (s : BehaviorTracker) : BehaviorTracker :=
  fold_left (fun this c => exec (perform c) this) cs s.

(** *** Vocabulary for the properties of the recorder *)

(** A method is read-only when it leaves every instance as it found it. *)
Definition readonly {A} (m : M A) : Prop := forall s, exec m s = s.

(** The canonical field list of the feature vector. *)
Definition canonicalFields : list string :=
  [ "session_time_ms"; "seat_hesitation_time_ms";
    "ktp_avg_keystroke_interval_ms"; "ktp_keystroke_variance";
    "ktp_total_entry_time_ms"; "ktp_paste_detected"; "field_edit_count";
    "mouse_total_distance"; "mouse_smoothness"; "total_clicks" ].

Definition isKeydown (e : KeystrokeEvent) : bool := String.eqb (eventType e) "keydown".
Definition isPaste (e : KeystrokeEvent) : bool := String.eqb (eventType e) "paste".

(** The key-down events a recorder holds, oldest first. *)
Definition keydowns (s : BehaviorTracker) : list KeystrokeEvent :=
  filter isKeydown (ktpKeystrokeData s).

(** The keystroke events that the calls [cs] record, in order. *)
Definition keystrokesOf (cs : list call) : list KeystrokeEvent :=
  flat_map (fun c =>
    match c with
    | KTPKeystroke now f e v => [mkKeystroke f e now v (length16 v)]
    | _ => []
    end) cs.

Definition pasteRecorded (cs : list call) : bool := existsb isPaste (keystrokesOf cs).
Definition keydownCount (cs : list call) : nat :=
  List.length (filter isKeydown (keystrokesOf cs)).

(** The pointer samples that the calls [cs] record, in order. *)
Definition samplesOf (cs : list call) : list MouseSample :=
  flat_map (fun c =>
    match c with
    | MouseMovement now x y => [mkSample x y now]
    | _ => []
    end) cs.

(** The last [n] elements of a list. *)
Definition lastn {A} (n : nat) (l : list A) : list A :=
  skipn (List.length l - n) l.

(** The clock reading a call sees, if it reads the clock. *)
Definition reading (c : call) : option Z :=
  match c with
  | KTPKeystroke now _ _ _ | MouseMovement now _ _
  | StartSeatHover now | EndSeatHover now => Some now
  | FieldEdit _ | Click => None
  end.

(** The readings of [cs] never go back, starting from the reading [last]. *)
Fixpoint chronological (last : Z) (cs : list call) : bool :=
  match cs with
  | [] => true
  | c :: rest =>
      match reading c with
      | Some now => (last <=? now) && chronological now rest
      | None => chronological last rest
      end
  end.

(** The two calls that start and end a hover. *)
Definition hoverCall (c : call) : bool :=
  match c with
  | StartSeatHover _ | EndSeatHover _ => true
  | _ => false
  end.

(** A hover that is under way began no later than [last]. *)
Definition startedBy (last : Z) (s : BehaviorTracker) : Prop :=
  forall t0, seatHoverStartTime s = Some t0 -> t0 <= last.

(** The four exported keystroke fields. *)
Definition keystrokeFields : list string :=
  [ "ktp_avg_keystroke_interval_ms"; "ktp_keystroke_variance";
    "ktp_total_entry_time_ms"; "ktp_paste_detected" ].

(** *** Vocabulary for further properties of the recorder *)


(** The number of [trackClick] calls among [cs]. *)
Definition clickCalls (cs : list call) : nat :=
  List.length (filter (fun c => match c with Click => true | _ => false end) cs).






(** The Euclidean distance between two samples, as the loop computes it. *)
Definition distance (prev curr : MouseSample) : float :=
  PrimFloat.sqrt (pow2 (x curr - x prev) + pow2 (y curr - y prev))%float.

(** The length of the path through the samples [l]: the distances between
    consecutive samples, added from the oldest pair on. *)
Definition pathLength (l : list MouseSample) : float :=
  fold_left (fun d pc => (d + distance (fst pc) (snd pc))%float) (combine l (tl l))
            0%float.

(** The fields of the export that are guarded by [|| 0] or [? 1 : 0]. *)
Definition guardedFields : list string :=
  [ "ktp_avg_keystroke_interval_ms"; "ktp_keystroke_variance";
    "ktp_total_entry_time_ms"; "ktp_paste_detected";
    "mouse_total_distance"; "mouse_smoothness" ].

End Tracker.

(* ------------------------------------------------------------------ *)
(** ** The decision gate: the checkout component *)

Module Checkout.
Import Js.

(** The three values [aiSecurityStatus] takes:
    ['analyzing'], ['passed'], ['flagged']. *)
Inductive SecurityStatus : Type := analyzing | passed | flagged.

Definition status_eqb (a b : SecurityStatus) : bool :=
  match a, b with
  | analyzing, analyzing | passed, passed | flagged, flagged => true
  | _, _ => false
  end.

Record BehaviorData : Type := mkBehaviorData {
  startTime        : Z;
  clicks           : Z;
  keystrokes       : Z;
  mouseMovements   : Z;
  scrollEvents     : Z;
  formInteractions : Z
}.

Record PaymentInfo : Type := mkPaymentInfo {
  cardNumber     : string;
  cardName       : string;
  expiryDate     : string;
  cvv            : string;
  bankName       : string;
  virtualAccount : string;
  ewalletPhone   : string
}.

(** The state cells of the component, one per [useState].  A render reads the
    cells once; [runAIAnalysis] and [handleSubmit] are closures created by that
    render and see the values it read for as long as they run.  A setter
    writes a cell, and what it wrote is read by the next render only. *)
Record Cells : Type := mkCells {
  paymentMethod    : string;
  aiSecurityStatus : SecurityStatus;
  securityScore    : Js.value;
  behaviorData     : BehaviorData;
  paymentInfo      : PaymentInfo
}.

(** The cells of the first render, when [Date.now()] reads [now]. *)
Definition initial (now : Z) : Cells :=
  {| paymentMethod    := "credit-card";
     aiSecurityStatus := analyzing;
     securityScore    := VNull;
     behaviorData     := mkBehaviorData now 0 0 0 0 0;
     paymentInfo      := mkPaymentInfo "" "" "" "" "" "" "" |}.

Definition setAiSecurityStatus (v : SecurityStatus) (c : Cells) : Cells :=
  mkCells (paymentMethod c) v (securityScore c) (behaviorData c) (paymentInfo c).

Definition setSecurityScore (v : Js.value) (c : Cells) : Cells :=
  mkCells (paymentMethod c) (aiSecurityStatus c) v (behaviorData c) (paymentInfo c).

(** The parsed body of an answer of the scoring endpoint: [prediction] is any
    value, [confidence] and [trust_score] are numbers when they are present
    ([None] when the body has no such property). *)
Record Result : Type := mkResult {
  prediction  : Js.value;
  confidence  : option float;
  trust_score : option float
}.

(** What the [fetch] of the scoring endpoint comes to.  The request body is
    assembled from the render's [behaviorData], [Date.now()] and
    [Math.random()]; it reaches the component only through this answer. *)
Inductive answer : Type :=
| FetchThrows            (* fetch rejects: the service is unreachable *)
| NotOk                  (* a response whose [ok] is false *)
| JsonThrows             (* [ok], but [response.json()] rejects *)
| Ok (result : Result).  (* [ok], with this parsed body *)

Definition field (x : option float) : Js.value :=
  match x with
  | Some v => VNum v
  | None => VUndefined
  end.

(** [v === s] for a string literal [s]. *)
Definition is_string (v : Js.value) (s : string) : bool :=
  match v with
  | VStr s' => String.eqb s' s
  | _ => false
  end.

(** The literals [0.7] and [0.3], as the nearest binary64 values. *)
Definition c0_7 : float := 0x1.6666666666666p-1%float.
Definition c0_3 : float := 0x1.3333333333333p-2%float.

(** [result.confidence > c] and [result.confidence < c]; a comparison with
    [undefined] is false. *)
Definition confidence_gt (r : Result) (c : float) : Js.value :=
  match confidence r with
  | Some v => VBool (c <? v)%float
  | None => VBool false
  end.
Definition confidence_lt (r : Result) (c : float) : Js.value :=
  match confidence r with
  | Some v => VBool (v <? c)%float
  | None => VBool false
  end.

(** [runAIAnalysis] against the cells: the [try] block up to the answer of
    [fetch], and the [catch] that runs when [fetch] or [json()] rejects. *)
Definition runAIAnalysis (a : answer) (cells : Cells) : Cells :=
  match a with
  | FetchThrows | JsonThrows =>
      setAiSecurityStatus analyzing cells      (* Keep analyzing on error *)
  | NotOk => cells
  | Ok result =>
      let cells :=
        setSecurityScore
          (or_else (or_else (field (confidence result)) (field (trust_score result)))
                   (VNum 0%float))
          cells in
      if is_string (prediction result) "human"
         || truthy (and_then (field (confidence result)) (confidence_gt result c0_7))
      then setAiSecurityStatus passed cells
      else if is_string (prediction result) "bot"
              || truthy (and_then (field (confidence result)) (confidence_lt result c0_3))
      then setAiSecurityStatus flagged cells
      else setAiSecurityStatus analyzing cells
  end.

(** The object handed to [onComplete]. *)
Record SecurityCheck : Type := mkSecurityCheck {
  method          : string;
  status          : SecurityStatus;
  score           : Js.value;
  sc_behaviorData : BehaviorData
}.

Record Completion : Type := mkCompletion {
  c_paymentMethod : string;
  c_paymentInfo   : PaymentInfo;
  securityCheck   : SecurityCheck
}.

(** How a submission ends: an [alert] and an early return, or the call of
    [onComplete]. *)
Inductive outcome : Type :=
| Alert (message : string)
| Complete (payload : Completion).

Definition empty (s : string) : bool := String.eqb s "".

(** The validation of the payment details, by payment method: the text of
    the [alert] when something is missing. *)
Definition validation (paymentMethod : string) (paymentInfo : PaymentInfo)
  : option string :=
  if String.eqb paymentMethod "credit-card" then
    if empty (cardNumber paymentInfo) || empty (cardName paymentInfo)
       || empty (expiryDate paymentInfo) || empty (cvv paymentInfo)
    then Some "Please fill in all card details" else None
  else if String.eqb paymentMethod "bank-transfer" then
    if empty (bankName paymentInfo) then Some "Please select a bank" else None
  else if String.eqb paymentMethod "ewallet" then
    if empty (ewalletPhone paymentInfo)
    then Some "Please enter your phone number" else None
  else None.

(** [handleSubmit], a closure of the render that read [render], running
    against the cells [cells]; [a] is the answer to the [fetch] of the final
    analysis. *)
Definition handleSubmit (render : Cells) (a : answer) (cells : Cells)
  : outcome * Cells :=
  (* Check AI security status before allowing submission *)
  if status_eqb (aiSecurityStatus render) flagged then
    (Alert "⚠️ Security check failed. Please contact customer support.", cells)
  else
  match validation (paymentMethod render) (paymentInfo render) with
  | Some message => (Alert message, cells)
  | None =>
      (* Run final AI analysis before completing *)
      let cells := runAIAnalysis a cells in
      (Complete
         {| c_paymentMethod := paymentMethod render;
            c_paymentInfo := paymentInfo render;
            securityCheck :=
              {| method := "AI";
                 status := aiSecurityStatus render;
                 score := securityScore render;
                 sc_behaviorData := behaviorData render |} |},
       cells)
  end.

(** A click on the submit button of the page as last rendered: the closure
    was created from the cells it runs against. *)
Definition submit (a : answer) (cells : Cells) : outcome * Cells :=
  handleSubmit cells a cells.

(** The periodic analysis and submissions of a session. *)
Inductive event : Type :=
| Tick (a : answer)
| Submit (a : answer).

Definition step (cells : Cells) (e : event) : Cells :=
  match e with
  | Tick a => runAIAnalysis a cells
  | Submit a => snd (submit a cells)
  end.

(** *** Vocabulary for the properties of the gate *)

(** The scoring service could not be reached, or it answered with an error
    status. *)
Definition transportFailure (a : answer) : bool :=
  match a with
  | FetchThrows | NotOk => true
  | JsonThrows | Ok _ => false
  end.

Definition answerOf (e : event) : answer :=
  match e with
  | Tick a | Submit a => a
  end.

(** The cells of a session in which the card form has been filled in and no
    analysis has answered yet. *)
Definition cardFilled : Cells :=
  {| paymentMethod    := "credit-card";
     aiSecurityStatus := analyzing;
     securityScore    := VNull;
     behaviorData     := mkBehaviorData 1000 4 40 200 3 4;
     paymentInfo      :=
       mkPaymentInfo "4111111111111111" "A Passenger" "12/29" "123" "" "" "" |}.

(** An answer of the scoring service that reads as a bot. *)
Definition botAnswer : answer :=
  Ok {| prediction := VStr "bot"; confidence := Some 0.125%float; trust_score := None |}.

(** *** The rest of the component *)

Definition setBehaviorData (f : BehaviorData -> BehaviorData) (c : Cells) : Cells :=
  mkCells (paymentMethod c) (aiSecurityStatus c) (securityScore c)
          (f (behaviorData c)) (paymentInfo c).

Definition setPaymentInfo (v : PaymentInfo) (c : Cells) : Cells :=
  mkCells (paymentMethod c) (aiSecurityStatus c) (securityScore c)
          (behaviorData c) v.

Definition setPaymentMethod (v : string) (c : Cells) : Cells :=
  mkCells v (aiSecurityStatus c) (securityScore c) (behaviorData c) (paymentInfo c).

(** The four document listeners; each updates from the previous value of the
    cell ([prev => ...]). *)
Definition handleClick : Cells -> Cells :=
  setBehaviorData (fun prev =>
    mkBehaviorData (startTime prev) (clicks prev + 1) (keystrokes prev)
                   (mouseMovements prev) (scrollEvents prev) (formInteractions prev)).
Definition handleKeydown : Cells -> Cells :=
  setBehaviorData (fun prev =>
    mkBehaviorData (startTime prev) (clicks prev) (keystrokes prev + 1)
                   (mouseMovements prev) (scrollEvents prev) (formInteractions prev)).
Definition handleMouseMove : Cells -> Cells :=
  setBehaviorData (fun prev =>
    mkBehaviorData (startTime prev) (clicks prev) (keystrokes prev)
                   (mouseMovements prev + 1) (scrollEvents prev) (formInteractions prev)).
Definition handleScroll : Cells -> Cells :=
  setBehaviorData (fun prev =>
    mkBehaviorData (startTime prev) (clicks prev) (keystrokes prev)
                   (mouseMovements prev) (scrollEvents prev + 1) (formInteractions prev)).

(** [{ ...paymentInfo, [field]: value }].  A [field] that is none of the
    seven names adds a property beside them, which nothing reads. *)
Definition withField (paymentInfo : PaymentInfo) (field value : string) : PaymentInfo :=
  let i := paymentInfo in
  if String.eqb field "cardNumber" then
    mkPaymentInfo value (cardName i) (expiryDate i) (cvv i) (bankName i)
                  (virtualAccount i) (ewalletPhone i)
  else if String.eqb field "cardName" then
    mkPaymentInfo (cardNumber i) value (expiryDate i) (cvv i) (bankName i)
                  (virtualAccount i) (ewalletPhone i)
  else if String.eqb field "expiryDate" then
    mkPaymentInfo (cardNumber i) (cardName i) value (cvv i) (bankName i)
                  (virtualAccount i) (ewalletPhone i)
  else if String.eqb field "cvv" then
    mkPaymentInfo (cardNumber i) (cardName i) (expiryDate i) value (bankName i)
                  (virtualAccount i) (ewalletPhone i)
  else if String.eqb field "bankName" then
    mkPaymentInfo (cardNumber i) (cardName i) (expiryDate i) (cvv i) value
                  (virtualAccount i) (ewalletPhone i)
  else if String.eqb field "virtualAccount" then
    mkPaymentInfo (cardNumber i) (cardName i) (expiryDate i) (cvv i) (bankName i)
                  value (ewalletPhone i)
  else if String.eqb field "ewalletPhone" then
    mkPaymentInfo (cardNumber i) (cardName i) (expiryDate i) (cvv i) (bankName i)
                  (virtualAccount i) value
  else i.

(** [handleInputChange], a closure of the render that read [render]: the
    new payment details are built from the details that render read, the
    interaction counter from the previous value of its cell. *)
Definition handleInputChange (render : Cells) (field value : string) (cells : Cells)
  : Cells :=
  let cells := setPaymentInfo (withField (paymentInfo render) field value) cells in
  (* Track form interactions for AI analysis *)
  setBehaviorData (fun prev =>
    mkBehaviorData (startTime prev) (clicks prev) (keystrokes prev)
                   (mouseMovements prev) (scrollEvents prev) (formInteractions prev + 1))
    cells.

(** An input event on the page as last rendered. *)
Definition input (field value : string) (cells : Cells) : Cells :=
  handleInputChange cells field value cells.

(** *** Vocabulary for further properties of the gate *)

(** The events of the page that the component listens to, other than the
    submission: the four document events and a change of a form input. *)
Inductive uiEvent : Type :=
| ClickEvent
| KeydownEvent
| MouseMoveEvent
| ScrollEvent
| InputEvent (field value : string).

(** The handler of an event, on the page as last rendered. *)
Definition handle (cells : Cells) (e : uiEvent) : Cells :=
  match e with
  | ClickEvent => handleClick cells
  | KeydownEvent => handleKeydown cells
  | MouseMoveEvent => handleMouseMove cells
  | ScrollEvent => handleScroll cells
  | InputEvent field value => input field value cells
  end.

(** How many of the events [es] satisfy [p]. *)
Definition occurrences (p : uiEvent -> bool) (es : list uiEvent) : Z :=
  Z.of_nat (List.length (filter p es)).

Definition isClick (e : uiEvent) : bool :=
  match e with ClickEvent => true | _ => false end.
Definition isKeydownEvent (e : uiEvent) : bool :=
  match e with KeydownEvent => true | _ => false end.
Definition isMouseMove (e : uiEvent) : bool :=
  match e with MouseMoveEvent => true | _ => false end.
Definition isScroll (e : uiEvent) : bool :=
  match e with ScrollEvent => true | _ => false end.
Definition isInput (e : uiEvent) : bool :=
  match e with InputEvent _ _ => true | _ => false end.

(** The condition of the first branch of the verdict, and of the second. *)
Definition readsHuman (r : Result) : Prop :=
  is_string (prediction r) "human" = true
  \/ exists c, confidence r = Some c /\ (c0_7 <? c)%float = true.
Definition readsBot (r : Result) : Prop :=
  is_string (prediction r) "bot" = true
  \/ exists c, confidence r = Some c /\ (c <? c0_3)%float = true
                /\ (c =? 0)%float = false.

(** A number of the reply that is there and is truthy (neither 0 nor NaN). *)
Definition given (x : option float) : bool :=
  match x with
  | Some v => truthy (VNum v)
  | None => false
  end.

(** The alert of a flagged submission. *)
Definition securityAlert : string :=
  "⚠️ Security check failed. Please contact customer support.".

End Checkout.

(* ------------------------------------------------------------------ *)
(** ** The ingestion endpoint: [POST /api/save-training-data] *)

Module Route.
Import Js.

(** What [req.json()] comes to. *)
Inductive body : Type :=
| Malformed                (* [req.json()] rejects *)
| Parsed (v : Js.value).

(** What the insertion into [raw_train_data] comes to: [{ data, error }]
    with [error] set, the same with [error] null, or a rejected promise. *)
Inductive inserted : Type :=
| DbError (message : Js.value)
| DbData (data : Js.value)
| DbThrows.

(** [NextResponse.json(payload, { status })]; the status defaults to 200. *)
Record Response : Type := mkResponse {
  status  : Z;
  payload : Js.value
}.

(** The rest pattern [{ user_id, ...behaviorData }]: the own properties of
    the body other than [user_id]. *)
Definition rest (v : Js.value) : Js.value :=
  match v with
  | VObj fields => VObj (filter (fun kv => negb (String.eqb (fst kv) "user_id")) fields)
  | _ => VObj []
  end.

(** The row passed to [insert]. *)
Definition row (user_id behaviorData : Js.value) : Js.value :=
  VObj
    [ ("user_id", user_id);
      ("session_time_ms", or_else (prop behaviorData "session_time_ms") (VNum 0%float));
      ("seat_hesitation_time_ms",
         or_else (prop behaviorData "seat_hesitation_time_ms") (VNum 0%float));
      ("ktp_avg_keystroke_interval_ms",
         or_else (prop behaviorData "ktp_avg_keystroke_interval_ms") VNull);
      ("ktp_keystroke_variance",
         or_else (prop behaviorData "ktp_keystroke_variance") VNull);
      ("ktp_total_entry_time_ms",
         or_else (prop behaviorData "ktp_total_entry_time_ms") VNull);
      ("ktp_paste_detected",
         or_else (prop behaviorData "ktp_paste_detected") (VNum 0%float));
      ("field_edit_count", or_else (prop behaviorData "field_edit_count") (VNum 0%float));
      ("mouse_total_distance",
         or_else (prop behaviorData "mouse_total_distance") VNull);
      ("mouse_smoothness", or_else (prop behaviorData "mouse_smoothness") VNull);
      ("total_clicks", or_else (prop behaviorData "total_clicks") (VNum 0%float)) ].

Definition failure (error : Js.value) (code : Z) : Response :=
  mkResponse code (VObj [("success", VBool false); ("error", error)]).

Section WithDatabase.

(** The table, as the answer it gives to an insertion. *)
Variable insert : Js.value -> inserted.

(** The handler: the row it handed to the table, if it got that far, and
    its response. *)
Definition POST (req : body) : option Js.value * Response :=
  match req with
  | Malformed => (None, failure (VStr "server_error") 500)
  | Parsed VNull | Parsed VUndefined =>
      (* destructuring [null] throws *)
      (None, failure (VStr "server_error") 500)
  | Parsed b =>
      let user_id := prop b "user_id" in
      let behaviorData := rest b in
      if negb (truthy user_id) then
        (None, failure (VStr "Missing user_id") 400)
      else
        let r := row user_id behaviorData in
        match insert r with
        | DbError message => (Some r, failure message 500)
        | DbData data =>
            (Some r, mkResponse 200 (VObj [("success", VBool true); ("data", data)]))
        | DbThrows => (Some r, failure (VStr "server_error") 500)
        end
  end.

End WithDatabase.

(** *** Vocabulary for the properties of the endpoint *)

(** The fields whose missing-value default is [null], and those whose
    default is [0]. *)
Definition nullDefault : list string :=
  [ "ktp_avg_keystroke_interval_ms"; "ktp_keystroke_variance";
    "ktp_total_entry_time_ms"; "mouse_total_distance"; "mouse_smoothness" ].
Definition zeroDefault : list string :=
  [ "session_time_ms"; "seat_hesitation_time_ms"; "ktp_paste_detected";
    "field_edit_count"; "total_clicks" ].

(** *** Vocabulary for further properties of the endpoint *)

(** The columns of a stored row. *)
Definition columns : list string :=
  [ "user_id"; "session_time_ms"; "seat_hesitation_time_ms";
    "ktp_avg_keystroke_interval_ms"; "ktp_keystroke_variance";
    "ktp_total_entry_time_ms"; "ktp_paste_detected"; "field_edit_count";
    "mouse_total_distance"; "mouse_smoothness"; "total_clicks" ].

(** A request body made of a user identifier and the properties of a
    feature vector: [{ user_id, ...features }]. *)
Definition withUserId (user_id : string) (features : Js.value) : Js.value :=
  match features with
  | VObj fields => VObj (("user_id", VStr user_id) :: fields)
  | _ => VObj [("user_id", VStr user_id)]
  end.

End Route.

(* ------------------------------------------------------------------ *)
(** ** Properties of the recorder *)

(** Case analysis on the condition of the first conditional of the goal. *)
Ltac case_if :=
  match goal with
  | |- context [if ?c then _ else _] => destruct c eqn:?
  end.

Ltac case_match :=
  match goal with
  | |- context [match ?c with _ => _ end] => destruct c eqn:?
  end.

(** A [trackFieldEdit] assigns to [fieldEditCounts] and to nothing else. *)
Lemma trackFieldEdit_exec (f : string) (s : Tracker.BehaviorTracker) :
  exists o,
    Tracker.exec (Tracker.trackFieldEdit f) s = Tracker.set_fieldEditCounts o s.
Proof.
  unfold Tracker.exec, Tracker.trackFieldEdit, Tracker.bind, Tracker.gets,
    Tracker.modify.
  case_if; cbn; eexists; reflexivity.
Qed.

Ltac field_edit_frame :=
  match goal with
  | |- context [Tracker.trackFieldEdit ?f ?t] =>
      let o := fresh "o" in
      let Ho := fresh "Ho" in
      destruct (trackFieldEdit_exec f t) as [o Ho];
      unfold Tracker.exec in Ho; rewrite Ho
  end.

Section TrackerProperties.
Import Js Tracker.

Variable atan2 : float -> float -> float.

Lemma readonly_ret {A} (a : A) : readonly (ret a).
Proof. intro s; reflexivity. Qed.

Lemma readonly_gets {A} (f : BehaviorTracker -> A) : readonly (gets f).
Proof. intro s; reflexivity. Qed.

Lemma readonly_bind {A B} (m : M A) (k : A -> M B) :
  readonly m -> (forall a, readonly (k a)) -> readonly (bind m k).
Proof.
  intros Hm Hk s. unfold exec, bind.
  specialize (Hm s). unfold exec in Hm.
  destruct (m s) as [a s'] eqn:E. simpl in Hm. subst s'.
  apply Hk.
Qed.

Lemma run_readonly {A} (m : M A) (s : BehaviorTracker) :
  readonly m -> m s = (eval m s, s).
Proof.
  intro H. specialize (H s). unfold exec, eval in *.
  destruct (m s); simpl in *; congruence.
Qed.

Lemma bind_readonly_eval {A B} (m : M A) (k : A -> M B) (s : BehaviorTracker) :
  readonly m -> bind m k s = k (eval m s) s.
Proof. intro H. unfold bind. rewrite (run_readonly m s H). reflexivity. Qed.

Lemma getKTPKeystrokeDynamics_readonly : readonly getKTPKeystrokeDynamics.
Proof.
  apply readonly_bind; [apply readonly_gets|]. intro data; cbv beta zeta.
  repeat case_if; apply readonly_ret.
Qed.

Lemma getMouseMovementEntropy_readonly : readonly (getMouseMovementEntropy atan2).
Proof.
  apply readonly_bind; [apply readonly_gets|]. intro positions; cbv beta zeta.
  case_if; [apply readonly_ret|].
  destruct (fold_left _ _ _); apply readonly_ret.
Qed.

Lemma getAllMetrics_readonly now : readonly (getAllMetrics atan2 now).
Proof.
  unfold getAllMetrics.
  apply readonly_bind; [apply getKTPKeystrokeDynamics_readonly|]; intro.
  apply readonly_bind; [apply getMouseMovementEntropy_readonly|]; intro.
  repeat (apply readonly_bind; [apply readonly_gets|]; intro).
  apply readonly_ret.
Qed.

Lemma exportForML_readonly now : readonly (exportForML atan2 now).
Proof.
  unfold exportForML.
  apply readonly_bind; [apply getAllMetrics_readonly|]; intro.
  apply readonly_ret.
Qed.

(** The metrics object, with the two nested results still symbolic. *)
Lemma getAllMetrics_eval now s :
  eval (getAllMetrics atan2 now) s =
  VObj
    [ ("sessionTime", num (now - sessionStartTime s));
      ("seatHesitationTime", num (seatHesitationTime s));
      ("ktpKeystrokeDynamics", eval getKTPKeystrokeDynamics s);
      ("fieldEditCount", numberOf (eval getTotalFieldEdits s));
      ("mouseMovementEntropy", eval (getMouseMovementEntropy atan2) s);
      ("totalClicks", num (totalClicks s)) ].
Proof.
  unfold eval at 1, getAllMetrics.
  rewrite (bind_readonly_eval _ _ _ getKTPKeystrokeDynamics_readonly).
  rewrite (bind_readonly_eval _ _ _ getMouseMovementEntropy_readonly).
  reflexivity.
Qed.

Lemma exportForML_eval now s :
  eval (exportForML atan2 now) s =
  let ktpDynamics := eval getKTPKeystrokeDynamics s in
  let mouseEntropy := eval (getMouseMovementEntropy atan2) s in
  VObj
    [ ("session_time_ms", num (now - sessionStartTime s));
      ("seat_hesitation_time_ms", num (seatHesitationTime s));
      ("ktp_avg_keystroke_interval_ms",
         or_else (prop ktpDynamics "averageInterval") (VNum 0%float));
      ("ktp_keystroke_variance",
         or_else (prop ktpDynamics "variance") (VNum 0%float));
      ("ktp_total_entry_time_ms",
         or_else (prop ktpDynamics "totalTime") (VNum 0%float));
      ("ktp_paste_detected",
         if truthy (prop ktpDynamics "pasteDetected") then VNum 1%float else VNum 0%float);
      ("field_edit_count", numberOf (eval getTotalFieldEdits s));
      ("mouse_total_distance",
         or_else (prop mouseEntropy "totalDistance") (VNum 0%float));
      ("mouse_smoothness",
         or_else (prop mouseEntropy "smoothness") (VNum 0%float));
      ("total_clicks", num (totalClicks s)) ].
Proof.
  unfold eval at 1, exportForML.
  rewrite (bind_readonly_eval _ _ _ (getAllMetrics_readonly now)).
  rewrite getAllMetrics_eval. reflexivity.
Qed.

(** C2.  For every recorder state, [exportForML] returns an object whose
    properties are exactly the ten canonical fields, in the canonical order;
    neither [exportForML] nor [getAllMetrics] changes the recorder; hence two
    consecutive exports of one session, at any two clock readings, have the
    same field order and the same number of fields. *)
Theorem exportForML_fixed_shape_and_readonly :
  forall (s : BehaviorTracker) (now1 now2 : Z),
    let v1 := eval (exportForML atan2 now1) s in
    let s1 := exec (exportForML atan2 now1) s in
    let v2 := eval (exportForML atan2 now2) s1 in
    keys v1 = canonicalFields
    /\ s1 = s
    /\ exec (getAllMetrics atan2 now1) s = s
    /\ keys v2 = keys v1
    /\ List.length (keys v2) = 10%nat.
Proof.
  intros s now1 now2 v1 s1 v2.
  assert (Hs1 : s1 = s) by apply exportForML_readonly.
  assert (Hk : forall now t, keys (eval (exportForML atan2 now) t) = canonicalFields).
  { intros now t. rewrite exportForML_eval. reflexivity. }
  subst v1 v2. rewrite Hs1, !Hk.
  repeat split; try reflexivity. apply getAllMetrics_readonly.
Qed.

(** *** Keystroke dynamics *)

Lemma dynamics_few_keydowns s :
  (List.length (keydowns s) < 2)%nat ->
  eval getKTPKeystrokeDynamics s = VNum 0%float.
Proof.
  intro H. unfold eval, getKTPKeystrokeDynamics, bind, gets. cbv zeta.
  case_if; [reflexivity|].
  fold isKeydown. fold (keydowns s).
  apply Nat.ltb_lt in H. rewrite H. reflexivity.
Qed.

Lemma dynamics_many_keydowns s :
  (2 <= List.length (keydowns s))%nat ->
  eval getKTPKeystrokeDynamics s =
  let intervals := keystrokeIntervals (keydowns s) in
  let n := float_of_Z (Z.of_nat (List.length intervals)) in
  let avgInterval := (fold_left (fun a b => a + b) intervals 0 / n)%float in
  VObj
    [ ("averageInterval", VNum avgInterval);
      ("variance",
        VNum (fold_left (fun sum val => sum + pow2 (val - avgInterval)) intervals 0 / n)%float);
      ("totalTime",
        num (timestamp (nth (List.length (keydowns s) - 1) (keydowns s) noKeystroke)
             - timestamp (nth 0 (keydowns s) noKeystroke)));
      ("pasteDetected", VBool (existsb isPaste (ktpKeystrokeData s))) ].
Proof.
  intro H. unfold eval, getKTPKeystrokeDynamics, bind, gets. cbv zeta.
  fold isKeydown isPaste. fold (keydowns s).
  assert (Hd : (List.length (ktpKeystrokeData s) <? 2)%nat = false).
  { apply Nat.ltb_ge. pose proof (filter_length_le isKeydown (ktpKeystrokeData s)).
    unfold keydowns in H. lia. }
  rewrite Hd. apply Nat.ltb_ge in H. rewrite H. reflexivity.
Qed.

(** C7.  When a recorder holds fewer than two key-down events, the four
    exported keystroke fields are the number 0: a proper number, neither NaN
    nor undefined. *)
Theorem few_keydowns_export_defaults :
  forall (s : BehaviorTracker) (now : Z),
    (List.length (keydowns s) < 2)%nat ->
    let v := eval (exportForML atan2 now) s in
    prop v "ktp_avg_keystroke_interval_ms" = VNum 0%float
    /\ prop v "ktp_keystroke_variance" = VNum 0%float
    /\ prop v "ktp_total_entry_time_ms" = VNum 0%float
    /\ prop v "ktp_paste_detected" = VNum 0%float
    /\ forallb (fun k => is_number (prop v k)) keystrokeFields = true.
Proof.
  intros s now H v. subst v. rewrite exportForML_eval.
  rewrite (dynamics_few_keydowns s H). cbv zeta.
  repeat split.
Qed.




(** *** Paste detection *)

Lemma perform_ktpKeystrokeData c s :
  ktpKeystrokeData (exec (perform c) s) = ktpKeystrokeData s ++ keystrokesOf [c].
Proof.
  destruct c; unfold exec, perform; cbn [keystrokesOf flat_map]; rewrite ?app_nil_r.
  - reflexivity.
  - field_edit_frame. reflexivity.
  - unfold trackMouseMovement, bind, gets, modify. cbn. case_if; reflexivity.
  - unfold startSeatHover, bind, gets, modify. case_if; reflexivity.
  - unfold endSeatHover, bind, gets, modify.
    destruct (seatHoverStartTime s); [case_if|]; reflexivity.
  - reflexivity.
Qed.

Lemma run_app cs1 cs2 s : run (cs1 ++ cs2) s = run cs2 (run cs1 s).
Proof. apply fold_left_app. Qed.

Lemma run_ktpKeystrokeData cs s :
  ktpKeystrokeData (run cs s) = ktpKeystrokeData s ++ keystrokesOf cs.
Proof.
  revert s. induction cs as [|c cs IH]; intro s.
  - simpl. now rewrite app_nil_r.
  - change (run (c :: cs) s) with (run cs (exec (perform c) s)).
    rewrite IH, perform_ktpKeystrokeData, <- app_assoc.
    cbn [keystrokesOf flat_map]. now rewrite app_nil_r.
Qed.

Lemma session_ktpKeystrokeData now0 cs :
  ktpKeystrokeData (run cs (constructor now0)) = keystrokesOf cs.
Proof. now rewrite run_ktpKeystrokeData. Qed.

Lemma one_is_not_zero : VNum 0%float <> VNum 1%float.
Proof.
  intro H.
  apply (f_equal (fun v => match v with
                           | VNum x => PrimFloat.eqb x 0%float
                           | _ => false
                           end)) in H.
  vm_compute in H. discriminate H.
Qed.

(** C4, as the code has it.  In a session with at least two key-down events,
    the exported [ktp_paste_detected] is 1 when a paste event was recorded;
    and it is 0 when no paste event was recorded, however many key-down
    events there were. *)
Theorem paste_detected_with_two_keydowns :
  forall (now0 now : Z) (cs : list call),
    let v := eval (exportForML atan2 now) (run cs (constructor now0)) in
    ((2 <= keydownCount cs)%nat -> pasteRecorded cs = true ->
       prop v "ktp_paste_detected" = VNum 1%float)
    /\ (pasteRecorded cs = false -> prop v "ktp_paste_detected" = VNum 0%float).
Proof.
  intros now0 now cs v. subst v. rewrite exportForML_eval. cbv zeta.
  set (s := run cs (constructor now0)).
  assert (Hd : ktpKeystrokeData s = keystrokesOf cs) by apply session_ktpKeystrokeData.
  split.
  - intros H2 Hp.
    rewrite dynamics_many_keydowns by (unfold keydowns; rewrite Hd; exact H2).
    cbv zeta. rewrite Hd. fold (pasteRecorded cs). rewrite Hp. reflexivity.
  - intro Hp.
    destruct (Nat.lt_ge_cases (List.length (keydowns s)) 2) as [Hlt | Hge].
    + rewrite (dynamics_few_keydowns s Hlt). reflexivity.
    + rewrite (dynamics_many_keydowns s Hge).
      cbv zeta. rewrite Hd. fold (pasteRecorded cs). rewrite Hp. reflexivity.
Qed.

(** *** Mouse movement *)

Lemma entropy_few_samples s :
  (List.length (mousePositions s) < 2)%nat ->
  eval (getMouseMovementEntropy atan2) s = VNum 0%float.
Proof.
  intro H. unfold eval, getMouseMovementEntropy, bind, gets.
  apply Nat.ltb_lt in H. rewrite H. reflexivity.
Qed.

Lemma entropy_two_samples s a b :
  mousePositions s = [a; b] ->
  eval (getMouseMovementEntropy atan2) s =
  VObj
    [ ("totalDistance",
        VNum (0 + PrimFloat.sqrt (pow2 (x b - x a) + pow2 (y b - y a)))%float);
      ("averageAngleChange", VNum PrimFloat.nan);
      ("smoothness", VNum PrimFloat.nan) ].
Proof.
  intro H. unfold eval, getMouseMovementEntropy, bind, gets. rewrite H.
  reflexivity.
Qed.

(** What the export makes of it: with fewer than two retained samples both
    mouse features are 0, and with exactly two the exported smoothness is 0,
    because [exportForML] replaces a NaN by 0. *)
Lemma export_mouse_defaults s now :
  let v := eval (exportForML atan2 now) s in
  ((List.length (mousePositions s) < 2)%nat ->
     prop v "mouse_total_distance" = VNum 0%float
     /\ prop v "mouse_smoothness" = VNum 0%float)
  /\ (List.length (mousePositions s) = 2%nat ->
        prop v "mouse_smoothness" = VNum 0%float).
Proof.
  cbv zeta. rewrite exportForML_eval. cbv zeta. split.
  - intro H. rewrite (entropy_few_samples s H). split; reflexivity.
  - intro H. destruct (mousePositions s) as [|a [|b [|? ?]]] eqn:E; try discriminate H.
    rewrite (entropy_two_samples s a b E). reflexivity.
Qed.

(** C5, evaluated.  On a recorder that retains exactly the two samples [a]
    and [b], [getMouseMovementEntropy] reports the Euclidean distance from
    [a] to [b], and a smoothness that is NaN: the average divides the zero
    sum of angle changes by [length - 2 = 0].  For the samples (0,0) and
    (3,4) the distance is 5 and the smoothness is NaN. *)
Theorem two_samples_smoothness_is_nan :
  forall (s : BehaviorTracker) (a b : MouseSample),
    let r := eval (getMouseMovementEntropy atan2) (set_mousePositions [a; b] s) in
    let r34 := eval (getMouseMovementEntropy atan2)
                 (set_mousePositions
                    [mkSample 0%float 0%float 1000; mkSample 3%float 4%float 1016] s) in
    prop r "totalDistance" =
      VNum (0 + PrimFloat.sqrt (pow2 (x b - x a) + pow2 (y b - y a)))%float
    /\ prop r "smoothness" = VNum PrimFloat.nan
    /\ is_number (prop r "smoothness") = false
    /\ prop r34 "totalDistance" = VNum 5%float
    /\ prop r34 "smoothness" = VNum PrimFloat.nan.
Proof.
  intros s a b r r34. subst r r34.
  rewrite (entropy_two_samples (set_mousePositions [a; b] s) a b eq_refl).
  rewrite (entropy_two_samples (set_mousePositions _ s) _ _ eq_refl).
  repeat split; vm_compute; reflexivity.
Qed.

(** *** The pointer-sample buffer *)

Lemma trackMouseMovement_mousePositions now x0 y0 s :
  mousePositions (exec (trackMouseMovement now x0 y0) s) =
  if (100 <? List.length (mousePositions s ++ [mkSample x0 y0 now]))%nat
  then tl (mousePositions s ++ [mkSample x0 y0 now])
  else mousePositions s ++ [mkSample x0 y0 now].
Proof.
  unfold exec, trackMouseMovement, bind, gets, modify. cbn.
  case_if; reflexivity.
Qed.

Lemma perform_mousePositions c s :
  mousePositions (exec (perform c) s) =
  match c with
  | MouseMovement now x0 y0 =>
      if (100 <? List.length (mousePositions s ++ [mkSample x0 y0 now]))%nat
      then tl (mousePositions s ++ [mkSample x0 y0 now])
      else mousePositions s ++ [mkSample x0 y0 now]
  | _ => mousePositions s
  end.
Proof.
  destruct c; try apply trackMouseMovement_mousePositions;
    unfold exec, perform.
  - reflexivity.
  - field_edit_frame. reflexivity.
  - unfold startSeatHover, bind, gets, modify. case_if; reflexivity.
  - unfold endSeatHover, bind, gets, modify.
    destruct (seatHoverStartTime s); [case_if|]; reflexivity.
  - reflexivity.
Qed.

Lemma lastn_length {A} n (l : list A) :
  List.length (lastn n l) = Nat.min n (List.length l).
Proof. unfold lastn. rewrite length_skipn. lia. Qed.

Lemma lastn_all {A} n (l : list A) : (List.length l <= n)%nat -> lastn n l = l.
Proof.
  intro H. unfold lastn. replace (List.length l - n)%nat with 0%nat by lia.
  reflexivity.
Qed.

Lemma lastn_snoc {A} n (l : list A) a :
  lastn n (lastn n l ++ [a]) = lastn n (l ++ [a]).
Proof.
  destruct (Nat.le_gt_cases (List.length l) n) as [H | H].
  - now rewrite (lastn_all n l H).
  - unfold lastn at 1 3. rewrite !length_app, lastn_length. cbn [List.length].
    unfold lastn.
    replace (Nat.min n (List.length l) + 1 - n)%nat with 1%nat by lia.
    replace (List.length l + 1 - n)%nat with (1 + (List.length l - n))%nat by lia.
    rewrite <- skipn_skipn. f_equal.
    rewrite skipn_app.
    replace (List.length l - n - List.length l)%nat with 0%nat by lia.
    reflexivity.
Qed.

Lemma evict_is_lastn (l : list MouseSample) a :
  (List.length l <= 100)%nat ->
  (if (100 <? List.length (l ++ [a]))%nat then tl (l ++ [a]) else l ++ [a])
  = lastn 100 (l ++ [a]).
Proof.
  intro H. rewrite length_app. cbn [List.length].
  destruct (100 <? List.length l + 1)%nat eqn:E.
  - apply Nat.ltb_lt in E. unfold lastn. rewrite length_app. cbn [List.length].
    replace (List.length l + 1 - 100)%nat with 1%nat by lia.
    destruct (l ++ [a]); reflexivity.
  - apply Nat.ltb_ge in E. symmetry. apply lastn_all.
    rewrite length_app. cbn [List.length]. lia.
Qed.

Lemma run_snoc cs c s : run (cs ++ [c]) s = exec (perform c) (run cs s).
Proof. now rewrite run_app. Qed.

Lemma samplesOf_snoc cs c : samplesOf (cs ++ [c]) = samplesOf cs ++ samplesOf [c].
Proof. unfold samplesOf. now rewrite flat_map_app. Qed.

(** The buffer of a session is the last 100 of the samples it was given. *)
Lemma session_mousePositions now0 cs :
  mousePositions (run cs (constructor now0)) = lastn 100 (samplesOf cs).
Proof.
  induction cs as [|c cs IH] using rev_ind.
  - reflexivity.
  - rewrite run_snoc, perform_mousePositions, samplesOf_snoc, IH.
    destruct c; cbn [samplesOf flat_map]; rewrite ?app_nil_r; try reflexivity.
    rewrite evict_is_lastn by (rewrite lastn_length; lia).
    apply lastn_snoc.
Qed.

(** C6.  After any sequence of calls the buffer holds at most 100 samples,
    and it is the last 100 samples recorded, in the order of arrival.  One
    more [trackMouseMovement] keeps the bound; on a full buffer it drops the
    oldest sample, only that one, and appends the new one; on a buffer that
    is not full it drops nothing. *)
Theorem mouse_buffer_bounded_fifo :
  forall (now0 : Z) (cs : list call) (now : Z) (x0 y0 : float),
    let s := run cs (constructor now0) in
    let s' := exec (trackMouseMovement now x0 y0) s in
    (List.length (mousePositions s) <= 100)%nat
    /\ mousePositions s = lastn 100 (samplesOf cs)
    /\ (List.length (mousePositions s') <= 100)%nat
    /\ (List.length (mousePositions s) = 100%nat ->
          mousePositions s' = tl (mousePositions s) ++ [mkSample x0 y0 now])
    /\ ((List.length (mousePositions s) < 100)%nat ->
          mousePositions s' = mousePositions s ++ [mkSample x0 y0 now]).
Proof.
  intros now0 cs now x0 y0 s s'.
  assert (Hs : mousePositions s = lastn 100 (samplesOf cs))
    by apply session_mousePositions.
  assert (Hlen : (List.length (mousePositions s) <= 100)%nat)
    by (rewrite Hs, lastn_length; lia).
  assert (Hs' : mousePositions s' =
                if (100 <? List.length (mousePositions s ++ [mkSample x0 y0 now]))%nat
                then tl (mousePositions s ++ [mkSample x0 y0 now])
                else mousePositions s ++ [mkSample x0 y0 now])
    by apply trackMouseMovement_mousePositions.
  repeat split; try assumption.
  - rewrite Hs', evict_is_lastn, lastn_length by assumption. lia.
  - intro H. rewrite Hs', length_app. cbn [List.length].
    replace (100 <? List.length (mousePositions s) + 1)%nat with true
      by (symmetry; apply Nat.ltb_lt; lia).
    destruct (mousePositions s); [discriminate H | reflexivity].
  - intro H. rewrite Hs', length_app. cbn [List.length].
    replace (100 <? List.length (mousePositions s) + 1)%nat with false
      by (symmetry; apply Nat.ltb_ge; lia).
    reflexivity.
Qed.

(** *** Seat hesitation *)

Lemma perform_hesitation_other c s :
  (forall now, c <> EndSeatHover now) ->
  seatHesitationTime (exec (perform c) s) = seatHesitationTime s.
Proof.
  intro H. destruct c; unfold exec, perform.
  - reflexivity.
  - field_edit_frame. reflexivity.
  - unfold trackMouseMovement, bind, gets, modify. cbn. case_if; reflexivity.
  - unfold startSeatHover, bind, gets, modify. case_if; reflexivity.
  - now contradiction (H now).
  - reflexivity.
Qed.

Lemma perform_hover_other c s :
  (forall now, c <> EndSeatHover now) -> (forall now, c <> StartSeatHover now) ->
  seatHoverStartTime (exec (perform c) s) = seatHoverStartTime s.
Proof.
  intros H H'. destruct c; unfold exec, perform.
  - reflexivity.
  - field_edit_frame. reflexivity.
  - unfold trackMouseMovement, bind, gets, modify. cbn. case_if; reflexivity.
  - now contradiction (H' now).
  - now contradiction (H now).
  - reflexivity.
Qed.

Lemma endSeatHover_hovering now s t0 :
  seatHoverStartTime s = Some t0 -> t0 <> 0 ->
  exec (endSeatHover now) s =
  set_seatHoverStartTime None
    (set_seatHesitationTime (seatHesitationTime s + (now - t0)) s).
Proof.
  intros H H0. unfold exec, endSeatHover, bind, gets, modify. rewrite H.
  cbn [hovering]. apply Z.eqb_neq in H0. rewrite H0. reflexivity.
Qed.

Lemma endSeatHover_idle now s :
  hovering (seatHoverStartTime s) = false -> exec (endSeatHover now) s = s.
Proof.
  intro H. unfold exec, endSeatHover, bind, gets, modify.
  destruct (seatHoverStartTime s); [rewrite H|]; reflexivity.
Qed.

Lemma startSeatHover_hovering now s :
  hovering (seatHoverStartTime s) = true -> exec (startSeatHover now) s = s.
Proof.
  intro H. unfold exec, startSeatHover, bind, gets, modify. rewrite H. reflexivity.
Qed.

Lemma startSeatHover_idle now s :
  hovering (seatHoverStartTime s) = false ->
  exec (startSeatHover now) s = set_seatHoverStartTime (Some now) s.
Proof.
  intro H. unfold exec, startSeatHover, bind, gets, modify. rewrite H. reflexivity.
Qed.

Lemma hovering_true t : hovering t = true -> exists t0, t = Some t0 /\ t0 <> 0.
Proof.
  destruct t as [t0|]; [|discriminate]. cbn. intro H.
  exists t0. split; [reflexivity|]. apply Z.eqb_neq. now destruct (t0 =? 0).
Qed.

(** One call, in chronological order, does not lower the accumulated time
    and keeps the start of a hover in the past. *)
Lemma perform_hesitation_step c s last :
  startedBy last s ->
  (forall now, reading c = Some now -> last <= now) ->
  seatHesitationTime s <= seatHesitationTime (exec (perform c) s)
  /\ startedBy (match reading c with Some now => now | None => last end)
               (exec (perform c) s).
Proof.
  intros Hinv Hnow.
  destruct c as [now f e v | f | now x0 y0 | now | now |].
  1-3, 6:
    (split;
     [ rewrite perform_hesitation_other by discriminate; lia
     | intros t0 Ht0; rewrite perform_hover_other in Ht0 by discriminate;
       specialize (Hinv t0 Ht0); cbn [reading];
       try specialize (Hnow now eq_refl); lia ]).
  - specialize (Hnow now eq_refl).
    split; [rewrite perform_hesitation_other by discriminate; lia|].
    cbn [perform reading]. intros t0 Ht0.
    destruct (hovering (seatHoverStartTime s)) eqn:Hh.
    + rewrite startSeatHover_hovering in Ht0 by assumption.
      specialize (Hinv t0 Ht0). lia.
    + rewrite startSeatHover_idle in Ht0 by assumption.
      cbn in Ht0. injection Ht0 as <-. lia.
  - specialize (Hnow now eq_refl). cbn [perform reading].
    destruct (hovering (seatHoverStartTime s)) eqn:Hh.
    + destruct (hovering_true _ Hh) as (t0 & Hs & Hne).
      rewrite (endSeatHover_hovering now s t0 Hs Hne). cbn.
      specialize (Hinv t0 Hs). split; [lia | intros ? [=]].
    + rewrite endSeatHover_idle by assumption.
      split; [lia|]. intros t0 Ht0. specialize (Hinv t0 Ht0). lia.
Qed.

Lemma run_hesitation_monotone cs s last :
  startedBy last s -> chronological last cs = true ->
  seatHesitationTime s <= seatHesitationTime (run cs s).
Proof.
  revert s last. induction cs as [|c cs IH]; intros s last Hinv Hc.
  - cbn. lia.
  - change (run (c :: cs) s) with (run cs (exec (perform c) s)).
    cbn [chronological] in Hc.
    destruct (perform_hesitation_step c s last Hinv) as [Hle Hinv'].
    { intros now Hr. rewrite Hr in Hc. apply andb_prop in Hc. lia. }
    destruct (reading c) as [now|].
    + apply andb_prop in Hc. destruct Hc as [_ Hc].
      specialize (IH _ _ Hinv' Hc). lia.
    + specialize (IH _ _ Hinv' Hc). lia.
Qed.

Lemma run_startedBy cs s last :
  startedBy last s -> chronological last cs = true ->
  exists last', startedBy last' (run cs s) /\ chronological last' [] = true
                /\ forall cs', chronological last (cs ++ cs') = true ->
                               chronological last' cs' = true.
Proof.
  revert s last. induction cs as [|c cs IH]; intros s last Hinv Hc.
  - exists last. cbn. auto.
  - change (run (c :: cs) s) with (run cs (exec (perform c) s)).
    cbn [chronological] in Hc.
    destruct (perform_hesitation_step c s last Hinv) as [_ Hinv'].
    { intros now Hr. rewrite Hr in Hc. apply andb_prop in Hc. lia. }
    destruct (reading c) as [now|] eqn:Hr.
    + apply andb_prop in Hc. destruct Hc as [_ Hc].
      destruct (IH _ _ Hinv' Hc) as (last' & H1 & H2 & H3).
      exists last'. repeat split; try assumption.
      intros cs' Hcs'. apply H3. cbn [app chronological] in Hcs'.
      rewrite Hr in Hcs'. apply andb_prop in Hcs'. tauto.
    + destruct (IH _ _ Hinv' Hc) as (last' & H1 & H2 & H3).
      exists last'. repeat split; try assumption.
      intros cs' Hcs'. apply H3. cbn [app chronological] in Hcs'.
      now rewrite Hr in Hcs'.
Qed.

Lemma chronological_app last cs1 cs2 :
  chronological last (cs1 ++ cs2) = true -> chronological last cs1 = true.
Proof.
  revert last. induction cs1 as [|c cs1 IH]; intros last H; [reflexivity|].
  cbn [app chronological] in *. destruct (reading c).
  - apply andb_prop in H. destruct H as [H1 H2]. rewrite H1. cbn. now apply IH.
  - now apply IH.
Qed.

(** Calls other than the two hover calls leave the hover as it is. *)
Lemma run_without_hover_calls mid s :
  forallb (fun c => negb (hoverCall c)) mid = true ->
  seatHoverStartTime (run mid s) = seatHoverStartTime s
  /\ seatHesitationTime (run mid s) = seatHesitationTime s.
Proof.
  revert s. induction mid as [|c mid IH]; intros s H; [split; reflexivity|].
  cbn [forallb] in H. apply andb_prop in H. destruct H as [Hc H].
  change (run (c :: mid) s) with (run mid (exec (perform c) s)).
  destruct (IH (exec (perform c) s) H) as [IH1 IH2]. rewrite IH1, IH2.
  split.
  - apply perform_hover_other; intros now ->; discriminate Hc.
  - apply perform_hesitation_other; intros now ->; discriminate Hc.
Qed.

(** C9, as the code has it.  In a session whose clock readings never go
    back, the accumulated hesitation time never decreases as calls are
    added; the hover is begun at a positive clock reading [t0].  It changes only in
    [endSeatHover]: an end that closes a hover begun at [t0] adds exactly the
    elapsed [t1 - t0], whatever other calls were made during the hover, and
    every other call leaves it as it was.  A second
    [startSeatHover] during a hover changes nothing, [endSeatHover] outside a
    hover changes nothing, and a second [endSeatHover] in a row changes
    nothing, so that no interval is counted twice. *)
Theorem seat_hesitation_accumulates :
  forall (now0 : Z) (cs1 cs2 : list call) (s : BehaviorTracker) (t0 t1 t2 : Z),
    chronological now0 (cs1 ++ cs2) = true ->
    0 < t0 ->
    seatHesitationTime (run cs1 (constructor now0))
      <= seatHesitationTime (run (cs1 ++ cs2) (constructor now0))
    /\ (forall mid,
          hovering (seatHoverStartTime s) = false ->
          forallb (fun c => negb (hoverCall c)) mid = true ->
          seatHesitationTime
            (exec (endSeatHover t1) (run mid (exec (startSeatHover t0) s)))
          = seatHesitationTime s + (t1 - t0))
    /\ (forall c, (forall now, c <> EndSeatHover now) ->
          seatHesitationTime (exec (perform c) s) = seatHesitationTime s)
    /\ exec (startSeatHover t1) (exec (startSeatHover t0) s)
       = exec (startSeatHover t0) s
    /\ (hovering (seatHoverStartTime s) = false -> exec (endSeatHover t1) s = s)
    /\ exec (endSeatHover t2) (exec (endSeatHover t1) s) = exec (endSeatHover t1) s.
Proof.
  intros now0 cs1 cs2 s t0 t1 t2 Hc Ht0.
  assert (Hne : t0 <> 0) by lia.
  assert (Hstart : hovering (seatHoverStartTime (exec (startSeatHover t0) s)) = true).
  { destruct (hovering (seatHoverStartTime s)) eqn:Hh.
    - now rewrite startSeatHover_hovering.
    - rewrite startSeatHover_idle by assumption. cbn.
      apply Z.eqb_neq in Hne. now rewrite Hne. }
  repeat split.
  - rewrite run_app.
    assert (H0 : startedBy now0 (constructor now0)) by (intros ? [=]).
    destruct (run_startedBy cs1 _ _ H0 (chronological_app _ _ _ Hc))
      as (last' & H1 & _ & H3).
    exact (run_hesitation_monotone cs2 _ last' H1 (H3 cs2 Hc)).
  - intros mid Hidle Hmid.
    destruct (run_without_hover_calls mid (exec (startSeatHover t0) s) Hmid)
      as [Hh Ht].
    rewrite (startSeatHover_idle t0 s Hidle) in *. cbn in Hh, Ht.
    rewrite (endSeatHover_hovering t1 _ t0 Hh Hne). cbn. now rewrite Ht.
  - intros c Hc'. now apply perform_hesitation_other.
  - now apply startSeatHover_hovering.
  - apply endSeatHover_idle.
  - apply endSeatHover_idle.
    destruct (hovering (seatHoverStartTime s)) eqn:Hh.
    + destruct (hovering_true _ Hh) as (u & Hs & Hu).
      now rewrite (endSeatHover_hovering t1 s u Hs Hu).
    + now rewrite endSeatHover_idle.
Qed.

End TrackerProperties.

(* ------------------------------------------------------------------ *)
(** ** Properties of the decision gate *)

Section GateProperties.
Import Js Checkout.

Lemma runAIAnalysis_transport_failure a cells :
  transportFailure a = true ->
  aiSecurityStatus cells = analyzing ->
  aiSecurityStatus (runAIAnalysis a cells) = analyzing.
Proof. destruct a; intros Hf Hs; try discriminate Hf; cbn; auto. Qed.

Lemma handleSubmit_status render a cells :
  aiSecurityStatus (snd (handleSubmit render a cells)) = aiSecurityStatus cells
  \/ snd (handleSubmit render a cells) = runAIAnalysis a cells.
Proof.
  unfold handleSubmit.
  destruct (status_eqb _ _); [left; reflexivity|].
  destruct (validation _ _); [left | right]; reflexivity.
Qed.

(** C3.  When the scoring call fails in transport (the [fetch] throws, or
    the response is not ok), a gate that is [analyzing] is [analyzing]
    afterwards, whether the call was a periodic one or the one made by a
    submission; so it is not [passed]; and through any sequence of calls
    that all fail in transport the gate stays [analyzing]. *)
Theorem transport_failure_stays_analyzing :
  forall (a : answer) (render cells : Cells) (es : list event),
    transportFailure a = true ->
    forallb (fun e => transportFailure (answerOf e)) es = true ->
    aiSecurityStatus cells = analyzing ->
    aiSecurityStatus (runAIAnalysis a cells) = analyzing
    /\ aiSecurityStatus (snd (handleSubmit render a cells)) = analyzing
    /\ aiSecurityStatus (runAIAnalysis a cells) <> passed
    /\ aiSecurityStatus (fold_left step es cells) = analyzing.
Proof.
  intros a render cells es Ha Hes Hs.
  assert (H1 := runAIAnalysis_transport_failure a cells Ha Hs).
  repeat split.
  - exact H1.
  - destruct (handleSubmit_status render a cells) as [E | E]; rewrite E; assumption.
  - rewrite H1. discriminate.
  - clear a Ha H1. revert cells Hs.
    induction es as [|e es IH]; intros cells Hs; [exact Hs|].
    cbn [forallb] in Hes. apply andb_prop in Hes. destruct Hes as [He Hes].
    cbn [fold_left]. apply IH; [assumption|].
    destruct e as [a | a]; cbn [step answerOf] in *.
    + now apply runAIAnalysis_transport_failure.
    + unfold submit.
      destruct (handleSubmit_status cells a cells) as [E | E]; rewrite E;
        [assumption | now apply runAIAnalysis_transport_failure].
Qed.

(** A submission from a render that is not flagged, with valid payment
    details, calls [onComplete] whatever the final analysis answers, and the
    status and score it reports are those the render had read. *)
Lemma handleSubmit_completes render a cells :
  aiSecurityStatus render <> flagged ->
  validation (paymentMethod render) (paymentInfo render) = None ->
  exists payload,
    handleSubmit render a cells = (Complete payload, runAIAnalysis a cells)
    /\ status (securityCheck payload) = aiSecurityStatus render
    /\ score (securityCheck payload) = securityScore render.
Proof.
  intros Hs Hv. unfold handleSubmit. rewrite Hv.
  destruct (aiSecurityStatus render) eqn:E; try congruence; cbn;
    eexists; repeat split.
Qed.

(** C1, evaluated.  The final analysis of a submission answers "bot", and
    the gate's cells become [flagged]; the submission completes all the
    same, and the completion payload reports the status and the score that
    were read before the final analysis ([analyzing], no score). *)
Theorem final_analysis_verdict_is_not_used :
  aiSecurityStatus (runAIAnalysis botAnswer cardFilled) = flagged
  /\ exists payload,
       submit botAnswer cardFilled = (Complete payload, runAIAnalysis botAnswer cardFilled)
       /\ status (securityCheck payload) = analyzing
       /\ score (securityCheck payload) = VNull.
Proof.
  split; [reflexivity|].
  destruct (handleSubmit_completes cardFilled botAnswer cardFilled)
    as (payload & H1 & H2 & H3); [discriminate | reflexivity |].
  exists payload. repeat split; assumption.
Qed.

End GateProperties.

(* ------------------------------------------------------------------ *)
(** ** Properties of the ingestion endpoint *)

Section RouteProperties.
Import Js Route.

Variable insert : Js.value -> inserted.

Lemma lookup_rest k fields :
  k <> "user_id" ->
  lookup k (filter (fun kv => negb (String.eqb (fst kv) "user_id")) fields)
  = lookup k fields.
Proof.
  intro Hk. induction fields as [|[k' v] fields IH]; [reflexivity|].
  cbn [filter fst lookup]. destruct (String.eqb k' "user_id") eqn:E; cbn [negb lookup].
  - apply String.eqb_eq in E. subst k'.
    apply String.eqb_neq in Hk. now rewrite Hk.
  - now rewrite IH.
Qed.

Lemma prop_rest k fields :
  k <> "user_id" -> prop (rest (VObj fields)) k = prop (VObj fields) k.
Proof. intro Hk. cbn [rest prop]. now rewrite lookup_rest. Qed.

Lemma POST_row fields :
  truthy (prop (VObj fields) "user_id") = true ->
  fst (POST insert (Parsed (VObj fields)))
  = Some (row (prop (VObj fields) "user_id") (rest (VObj fields))).
Proof.
  intro H. unfold POST. rewrite H. cbn [negb].
  destruct (insert _); reflexivity.
Qed.

(** C10.  For a request with a (truthy) [user_id]: a field that is supplied
    with a falsy value, such as 0, is stored as [null] when it is one of the
    five with the [null] default, and as 0 when it is one of the other five;
    and the row stored for a request that supplies 0 for a field is the row
    stored for the request that differs only in leaving that field out. *)
Theorem POST_zero_is_stored_as_the_default :
  forall (fields fields' : list (string * Js.value)) (k : string),
    truthy (prop (VObj fields) "user_id") = true ->
    truthy (prop (VObj fields) k) = false ->
    prop (VObj fields') k = VUndefined ->
    (forall k', k' <> k -> prop (VObj fields') k' = prop (VObj fields) k') ->
    exists r,
      fst (POST insert (Parsed (VObj fields))) = Some r
      /\ fst (POST insert (Parsed (VObj fields'))) = Some r
      /\ (In k nullDefault -> prop r k = VNull)
      /\ (In k zeroDefault -> prop r k = VNum 0%float).
Proof.
  intros fields fields' k Hu Hk Hk' Hsame.
  assert (Hne : k <> "user_id").
  { intro E. subst k. rewrite Hu in Hk. discriminate Hk. }
  assert (Hu' : prop (VObj fields') "user_id" = prop (VObj fields) "user_id").
  { apply Hsame. congruence. }
  assert (Hd : forall key d, key <> "user_id" ->
            or_else (prop (rest (VObj fields')) key) d
            = or_else (prop (rest (VObj fields)) key) d).
  { intros key d Hkey. rewrite !prop_rest by assumption.
    destruct (string_dec key k) as [-> | Hneq].
    - unfold or_else. rewrite Hk, Hk'. reflexivity.
    - now rewrite Hsame. }
  exists (row (prop (VObj fields) "user_id") (rest (VObj fields))).
  split; [now apply POST_row|]. split.
  - rewrite POST_row by (rewrite Hu'; assumption).
    rewrite Hu'. unfold row. rewrite !Hd by discriminate. reflexivity.
  - assert (Hf : forall d, or_else (prop (rest (VObj fields)) k) d = d).
    { intro d. rewrite prop_rest by assumption. unfold or_else. now rewrite Hk. }
    split; intro Hin; cbn [In nullDefault zeroDefault] in Hin;
      repeat (destruct Hin as [<- | Hin]; [cbn [row prop lookup String.eqb Ascii.eqb Bool.eqb]; apply Hf|]);
      contradiction.
Qed.

End RouteProperties.

(* ------------------------------------------------------------------ *)
(** ** The properties at concrete sessions *)

Section TrackerInstances.
Import Js Tracker.

(** The sessions below never hold three pointer samples, so [Math.atan2] is
    never called in them; any function can stand for it. *)
Let atan2 : float -> float -> float := fun _ _ => 0%float.

(** One digit typed and the rest pasted. *)
Let pasted : BehaviorTracker :=
  run [ KTPKeystroke 4000 "ktp" "keydown" "3";
        KTPKeystroke 4050 "ktp" "keyup" "3";
        KTPKeystroke 4900 "ktp" "paste" "3201234567890001" ]
      (constructor 1000).


(** C4, as stated, fails: a session whose only keystroke event is a paste
    has recorded a paste, and its exported [ktp_paste_detected] is 0. *)
Lemma paste_only_session_not_detected :
  ~ (forall (atan2 : float -> float -> float) (now0 now : Z) (cs : list call),
       pasteRecorded cs = true ->
       prop (eval (exportForML atan2 now) (run cs (constructor now0)))
            "ktp_paste_detected" = VNum 1%float).
Proof.
  intro H.
  specialize (H atan2 1000 9000
                [KTPKeystroke 4000 "ktp" "paste" "3201234567890001"] eq_refl).
  vm_compute in H. exact (one_is_not_zero H).
Qed.

(** C4 at two sessions: keys typed around a paste, and keys typed with no
    paste. *)
Lemma paste_detected_with_two_keydowns_witness :
  let typed_and_pasted :=
    [ KTPKeystroke 4000 "ktp" "keydown" "3";
      KTPKeystroke 4400 "ktp" "paste" "3201234567890";
      KTPKeystroke 5200 "ktp" "keydown" "32012345678900" ] in
  let typed := [ KTPKeystroke 4000 "ktp" "keydown" "3" ] in
  prop (eval (exportForML atan2 9000) (run typed_and_pasted (constructor 1000)))
       "ktp_paste_detected" = VNum 1%float
  /\ prop (eval (exportForML atan2 9000) (run typed (constructor 1000)))
          "ktp_paste_detected" = VNum 0%float.
Proof.
  intros typed_and_pasted typed. split.
  - apply (proj1 (paste_detected_with_two_keydowns atan2 1000 9000 typed_and_pasted)).
    + vm_compute. lia.
    + reflexivity.
  - apply (proj2 (paste_detected_with_two_keydowns atan2 1000 9000 typed)).
    reflexivity.
Defined.

(** C7 at a session with one key-down event and a paste. *)
Lemma few_keydowns_export_defaults_witness :
  (List.length (keydowns pasted) < 2)%nat
  /\ prop (eval (exportForML atan2 9000) pasted) "ktp_avg_keystroke_interval_ms"
     = VNum 0%float
  /\ prop (eval (exportForML atan2 9000) pasted) "ktp_paste_detected" = VNum 0%float.
Proof.
  assert (H : (List.length (keydowns pasted) < 2)%nat) by (vm_compute; lia).
  split; [exact H|].
  pose proof (few_keydowns_export_defaults atan2 pasted 9000 H) as T.
  cbv zeta in T. split; [apply T | apply T].
Defined.


(** C6 at a session of 100 pointer samples: the 101st evicts the first. *)
Lemma mouse_buffer_bounded_fifo_witness :
  let moves := map (fun i => MouseMovement (2000 + Z.of_nat i) 0%float 0%float)
                   (seq 0 100) in
  let s := run moves (constructor 1000) in
  List.length (mousePositions s) = 100%nat
  /\ mousePositions (exec (trackMouseMovement 3000 7%float 9%float) s)
     = tl (mousePositions s) ++ [mkSample 7%float 9%float 3000].
Proof.
  intros moves s.
  assert (H : List.length (mousePositions s) = 100%nat) by (vm_compute; reflexivity).
  split; [exact H|].
  pose proof (mouse_buffer_bounded_fifo 1000 moves 3000 7%float 9%float) as T.
  cbv zeta in T. apply T. exact H.
Defined.

(** C9, as stated, fails.  When the clock goes back during a hover, the end
    of the hover lowers the accumulated time (2000 to 1500: from 0 to -500);
    and a hover begun at the clock reading 0 does not count as a hover, so
    that a second [startSeatHover] is not a no-op but begins it anew. *)
Lemma seat_hesitation_needs_a_forward_clock :
  seatHesitationTime (run [StartSeatHover 2000; EndSeatHover 1500] (constructor 1000))
    < seatHesitationTime (run [StartSeatHover 2000] (constructor 1000))
  /\ exec (startSeatHover 5) (exec (startSeatHover 0) (constructor 0))
     <> exec (startSeatHover 0) (constructor 0).
Proof.
  split; [reflexivity|].
  intro H. apply (f_equal seatHoverStartTime) in H. vm_compute in H. discriminate H.
Qed.

(** C9 at a session with two hovers, a repeated start and a repeated end. *)
Lemma seat_hesitation_accumulates_witness :
  let cs1 := [StartSeatHover 1100; EndSeatHover 1400] in
  let cs2 := [StartSeatHover 2000; StartSeatHover 2100;
              EndSeatHover 2500; EndSeatHover 2600] in
  chronological 1000 (cs1 ++ cs2) = true
  /\ 0 < 1100
  /\ seatHesitationTime (run cs1 (constructor 1000)) = 300
  /\ seatHesitationTime (run (cs1 ++ cs2) (constructor 1000)) = 800
  /\ seatHesitationTime (run cs1 (constructor 1000))
     <= seatHesitationTime (run (cs1 ++ cs2) (constructor 1000)).
Proof.
  intros cs1 cs2.
  assert (H : chronological 1000 (cs1 ++ cs2) = true) by reflexivity.
  assert (H0 : 0 < 1100) by reflexivity.
  repeat split; try assumption; try reflexivity.
  apply (seat_hesitation_accumulates 1000 cs1 cs2 (constructor 1000) 1100 1400 1500 H H0).
Defined.

End TrackerInstances.

Section GateInstances.
Import Js Checkout.

(** C3 at a session whose scoring service is down. *)
Lemma transport_failure_stays_analyzing_witness :
  transportFailure FetchThrows = true
  /\ aiSecurityStatus cardFilled = analyzing
  /\ aiSecurityStatus (runAIAnalysis FetchThrows cardFilled) = analyzing
  /\ aiSecurityStatus
       (fold_left step [Tick NotOk; Submit FetchThrows; Tick FetchThrows] cardFilled)
     = analyzing.
Proof.
  pose proof (transport_failure_stays_analyzing FetchThrows cardFilled cardFilled
                [Tick NotOk; Submit FetchThrows; Tick FetchThrows]
                eq_refl eq_refl eq_refl) as T.
  repeat split; apply T.
Defined.

End GateInstances.

Section RouteInstances.
Import Js Route.

(** C10 at a request that reports a measured variance of 0, and the same
    request without the field. *)
Lemma POST_zero_is_stored_as_the_default_witness :
  let insert := fun r : Js.value => DbData (VObj [("id", VNum 1%float)]) in
  let measured :=
    [ ("user_id", VStr "user-1");
      ("ktp_keystroke_variance", VNum 0%float);
      ("total_clicks", VNum 7%float) ] in
  let absent :=
    [ ("user_id", VStr "user-1"); ("total_clicks", VNum 7%float) ] in
  exists r,
    fst (POST insert (Parsed (VObj measured))) = Some r
    /\ fst (POST insert (Parsed (VObj absent))) = Some r
    /\ prop r "ktp_keystroke_variance" = VNull.
Proof.
  intros insert measured absent.
  destruct (POST_zero_is_stored_as_the_default insert measured absent
              "ktp_keystroke_variance") as (r & H1 & H2 & H3 & _).
  - reflexivity.
  - reflexivity.
  - reflexivity.
  - intros k' Hk'. cbn [prop lookup measured absent].
    destruct (String.eqb k' "user_id"); [reflexivity|].
    destruct (String.eqb k' "ktp_keystroke_variance") eqn:E; [|reflexivity].
    apply String.eqb_eq in E. contradiction.
  - exists r. repeat split; try assumption.
    apply H3. cbn. auto.
Defined.

End RouteInstances.

(* ------------------------------------------------------------------ *)
(** ** Further properties of the recorder *)

Section TrackerCounters.
Import Js Tracker.

(** *** The object used as a map of edit counts *)






















Lemma perform_totalClicks c s :
  totalClicks (exec (perform c) s)
  = totalClicks s + match c with Click => 1 | _ => 0 end.
Proof.
  destruct c; unfold exec, perform.
  - cbn. lia.
  - field_edit_frame. cbn. lia.
  - unfold trackMouseMovement, bind, gets, modify. cbn. case_if; cbn; lia.
  - unfold startSeatHover, bind, gets, modify. case_if; cbn; lia.
  - unfold endSeatHover, bind, gets, modify.
    destruct (seatHoverStartTime s); [case_if|]; cbn; lia.
  - reflexivity.
Qed.

Lemma perform_sessionStartTime c s :
  sessionStartTime (exec (perform c) s) = sessionStartTime s.
Proof.
  destruct c; unfold exec, perform.
  - reflexivity.
  - field_edit_frame. reflexivity.
  - unfold trackMouseMovement, bind, gets, modify. cbn. case_if; reflexivity.
  - unfold startSeatHover, bind, gets, modify. case_if; reflexivity.
  - unfold endSeatHover, bind, gets, modify.
    destruct (seatHoverStartTime s); [case_if|]; reflexivity.
  - reflexivity.
Qed.

(** X2.  In every session [getTotalClicks] reports the number of
    [trackClick] calls made, and [getSessionTime] the time elapsed since the
    recorder was constructed: no call moves the time origin. *)
Theorem clicks_and_session_time :
  forall (now0 now : Z) (cs : list call),
    let s := run cs (constructor now0) in
    eval getTotalClicks s = Z.of_nat (clickCalls cs)
    /\ eval (getSessionTime now) s = now - now0.
Proof.
  intros now0 now cs s. subst s.
  change (eval getTotalClicks ?t) with (totalClicks t).
  change (eval (getSessionTime now) ?t) with (now - sessionStartTime t).
  induction cs as [|c cs [IH1 IH2]] using rev_ind; [split; reflexivity|].
  rewrite run_snoc, perform_totalClicks, perform_sessionStartTime.
  unfold clickCalls in *. rewrite filter_app, length_app.
  split; [|exact IH2].
  destruct c; cbn [filter List.length]; lia.
Qed.

End TrackerCounters.

Section TrackerFeatures.
Import Js Tracker.

Variable atan2 : float -> float -> float.

Lemma keystrokesOf_lengths cs :
  Forall (fun e => length e = length16 (value e)) (keystrokesOf cs).
Proof.
  induction cs as [|c cs IH]; [constructor|].
  destruct c; cbn [keystrokesOf flat_map app]; try exact IH.
  constructor; [reflexivity | exact IH].
Qed.

(** The length of a text is counted in UTF-16 code units, not in bytes. *)
Lemma length16_units :
  length16 "3201" = 4%nat /\ length16 "Ayşe" = 4%nat /\ length16 "😀" = 2%nat
  /\ String.length "Ayşe" = 5%nat.
Proof. repeat split. Qed.

(** X3.  The keystroke log is append-only: after any calls it is the log as
    it was, followed by one entry per [trackKTPKeystroke] call, in call
    order, each holding the arguments and the clock reading of its call, and
    as its length the number of UTF-16 code units of the value.  No call
    removes, reorders or rewrites an entry. *)
Theorem keystroke_log_append_only :
  forall (cs : list call) (s : BehaviorTracker),
    ktpKeystrokeData (run cs s) = ktpKeystrokeData s ++ keystrokesOf cs
    /\ Forall (fun e => length e = length16 (value e)) (keystrokesOf cs).
Proof.
  intros cs s. split; [|apply keystrokesOf_lengths].
  revert s. induction cs as [|c cs IH] using rev_ind; intro s.
  - cbn. now rewrite app_nil_r.
  - rewrite run_snoc, perform_ktpKeystrokeData, IH.
    unfold keystrokesOf. now rewrite flat_map_app, app_assoc.
Qed.

Lemma keystrokeIntervals_timestamps l :
  keystrokeIntervals l =
  map (fun i => float_of_Z (nth i (map timestamp l) 0 - nth (i - 1) (map timestamp l) 0))
      (seq 1 (List.length (map timestamp l) - 1)).
Proof.
  unfold keystrokeIntervals. rewrite length_map.
  apply map_ext. intro i.
  now rewrite <- !(map_nth timestamp l noKeystroke).
Qed.

(** X4.  The keystroke dynamics are a function of the clock readings of the
    key-down events and of whether a paste was recorded: two recorders that
    agree on these get the same result, whatever the field identifiers, the
    values, and the key-up events they hold. *)
Theorem dynamics_depend_on_keydown_times_and_paste :
  forall (s s' : BehaviorTracker),
    map timestamp (keydowns s) = map timestamp (keydowns s') ->
    existsb isPaste (ktpKeystrokeData s) = existsb isPaste (ktpKeystrokeData s') ->
    eval getKTPKeystrokeDynamics s = eval getKTPKeystrokeDynamics s'.
Proof.
  intros s s' Ht Hp.
  assert (Hl : List.length (keydowns s) = List.length (keydowns s')).
  { rewrite <- (length_map timestamp (keydowns s)), Ht. apply length_map. }
  destruct (Nat.lt_ge_cases (List.length (keydowns s)) 2) as [H | H].
  - rewrite (dynamics_few_keydowns s H).
    rewrite Hl in H. now rewrite (dynamics_few_keydowns s' H).
  - rewrite (dynamics_many_keydowns s H).
    rewrite Hl in H. rewrite (dynamics_many_keydowns s' H). cbv zeta.
    rewrite !keystrokeIntervals_timestamps, Ht, Hp.
    rewrite <- !(map_nth timestamp _ noKeystroke). cbn [timestamp noKeystroke].
    now rewrite Ht, Hl.
Qed.

Lemma keystrokesOf_app cs cs' :
  keystrokesOf (cs ++ cs') = keystrokesOf cs ++ keystrokesOf cs'.
Proof. unfold keystrokesOf. apply flat_map_app. Qed.

Lemma export_paste_detected now0 now cs :
  prop (eval (exportForML atan2 now) (run cs (constructor now0))) "ktp_paste_detected"
  = if (2 <=? keydownCount cs)%nat && pasteRecorded cs
    then VNum 1%float else VNum 0%float.
Proof.
  rewrite exportForML_eval. cbv zeta.
  set (s := run cs (constructor now0)).
  assert (Hd : ktpKeystrokeData s = keystrokesOf cs) by apply session_ktpKeystrokeData.
  assert (Hk : List.length (keydowns s) = keydownCount cs)
    by (unfold keydowns; now rewrite Hd).
  destruct (2 <=? keydownCount cs)%nat eqn:E.
  - apply Nat.leb_le in E. rewrite <- Hk in E.
    rewrite (dynamics_many_keydowns s E). cbv zeta.
    rewrite Hd. fold (pasteRecorded cs). now destruct (pasteRecorded cs).
  - apply Nat.leb_gt in E. rewrite <- Hk in E.
    now rewrite (dynamics_few_keydowns s E).
Qed.

(** X5.  The exported [ktp_paste_detected] of a session is 1 exactly when a
    paste and at least two key-down events have been recorded, and 0
    otherwise; and once it is 1 it is 1 after any further calls. *)
Theorem paste_detected_characterised :
  forall (now0 now now' : Z) (cs cs' : list call),
    let flag := fun t (l : list call) =>
      prop (eval (exportForML atan2 t) (run l (constructor now0))) "ktp_paste_detected" in
    (flag now cs = VNum 1%float
       <-> (2 <= keydownCount cs)%nat /\ pasteRecorded cs = true)
    /\ (flag now cs = VNum 1%float \/ flag now cs = VNum 0%float)
    /\ (flag now cs = VNum 1%float -> flag now' (cs ++ cs') = VNum 1%float).
Proof.
  intros now0 now now' cs cs' flag. subst flag. cbv beta.
  rewrite !export_paste_detected.
  assert (Hiff : forall l,
            (if (2 <=? keydownCount l)%nat && pasteRecorded l
             then VNum 1%float else VNum 0%float) = VNum 1%float
            <-> (2 <= keydownCount l)%nat /\ pasteRecorded l = true).
  { intro l. destruct (2 <=? keydownCount l)%nat eqn:E; cbn [andb].
    - apply Nat.leb_le in E. destruct (pasteRecorded l).
      + tauto.
      + split; [intro H; now destruct (one_is_not_zero H) | intros [_ H]; discriminate H].
    - apply Nat.leb_gt in E.
      split; [intro H; now destruct (one_is_not_zero H) | intros [H _]; lia]. }
  split; [apply Hiff|]. split.
  - destruct (_ && _); auto.
  - intro H. apply Hiff in H. destruct H as [H2 Hp]. apply Hiff.
    unfold keydownCount, pasteRecorded in *.
    rewrite keystrokesOf_app, filter_app, length_app, existsb_app, Hp.
    split; [lia | reflexivity].
Qed.

(** *** The export holds proper numbers *)

Lemma or_else_zero_is_number v :
  (v = VUndefined \/ exists x, v = VNum x) ->
  is_number (or_else v (VNum 0%float)) = true.
Proof.
  intros [-> | [x ->]]; [reflexivity|].
  unfold or_else, truthy, is_number.
  destruct (PrimFloat.eqb x 0) eqn:E0; cbn [negb andb]; [reflexivity|].
  destruct (is_nan x) eqn:En; cbn [negb]; [reflexivity | now rewrite En].
Qed.

Lemma dynamics_cases s :
  eval getKTPKeystrokeDynamics s = VNum 0%float
  \/ exists a v t p,
       eval getKTPKeystrokeDynamics s =
       VObj [ ("averageInterval", VNum a); ("variance", VNum v);
              ("totalTime", VNum t); ("pasteDetected", VBool p) ].
Proof.
  destruct (Nat.lt_ge_cases (List.length (keydowns s)) 2) as [H | H].
  - left. now apply dynamics_few_keydowns.
  - right. rewrite (dynamics_many_keydowns s H). cbv zeta. unfold num.
    repeat eexists.
Qed.

Lemma entropy_cases s :
  eval (getMouseMovementEntropy atan2) s = VNum 0%float
  \/ exists d a,
       eval (getMouseMovementEntropy atan2) s =
       VObj [ ("totalDistance", VNum d); ("averageAngleChange", VNum a);
              ("smoothness", VNum a) ].
Proof.
  unfold eval, getMouseMovementEntropy, bind, gets.
  case_if; [left; reflexivity|]. right.
  destruct (fold_left _ _ _) as [d a]. cbn. repeat eexists.
Qed.

(** X6.  Whatever the recorder holds, and whatever [Math.atan2] returns,
    the six guarded fields of the export are numbers that are not NaN: never
    NaN, [undefined], or a boolean. *)
Theorem export_guarded_fields_are_numbers :
  forall (s : BehaviorTracker) (now : Z) (k : string),
    In k guardedFields ->
    is_number (prop (eval (exportForML atan2 now) s) k) = true.
Proof.
  intros s now k Hk. rewrite exportForML_eval. cbv zeta.
  destruct (dynamics_cases s) as [-> | (a & v & t & p & ->)];
  destruct (entropy_cases s) as [-> | (d & g & ->)];
  cbn [In guardedFields] in Hk;
  repeat (destruct Hk as [<- | Hk];
          [ cbn [prop lookup String.eqb Ascii.eqb Bool.eqb];
            first [ apply or_else_zero_is_number; first [now left | right; eexists; reflexivity]
                  | now destruct p
                  | reflexivity ] |]);
  contradiction.
Qed.

(** *** Pointer samples *)

Lemma entropy_of_positions s s' :
  mousePositions s = mousePositions s' ->
  eval (getMouseMovementEntropy atan2) s = eval (getMouseMovementEntropy atan2) s'.
Proof.
  intro H. unfold eval, getMouseMovementEntropy, bind, gets. cbn. rewrite H.
  case_if; [reflexivity|]. now destruct (fold_left _ _ _).
Qed.

(** X7.  The mouse features of a session are computed from the last 100
    pointer samples only: two sessions whose last 100 samples are the same
    get the same result, whatever came before and whatever other calls were
    made. *)
Theorem entropy_depends_on_last_100_samples :
  forall (now0 now0' : Z) (cs cs' : list call),
    lastn 100 (samplesOf cs) = lastn 100 (samplesOf cs') ->
    eval (getMouseMovementEntropy atan2) (run cs (constructor now0))
    = eval (getMouseMovementEntropy atan2) (run cs' (constructor now0')).
Proof.
  intros now0 now0' cs cs' H. apply entropy_of_positions.
  now rewrite !session_mousePositions.
Qed.

Lemma mouseStep_distance l idx d a :
  fst (fold_left (mouseStep atan2 l) idx (d, a))
  = fold_left (fun d i => (d + distance (nth (i - 1) l noSample) (nth i l noSample))%float)
              idx d.
Proof.
  revert d a. induction idx as [|i idx IH]; intros d a; [reflexivity|].
  cbn [fold_left]. unfold mouseStep at 2. fold (distance (nth (i - 1) l noSample) (nth i l noSample)).
  destruct (1 <? i)%nat; apply IH.
Qed.

Lemma fold_left_over_map {A B C} (f : A -> C -> A) (g : B -> C) l a :
  fold_left f (map g l) a = fold_left (fun a b => f a (g b)) l a.
Proof. revert a. induction l as [|b l IH]; intro a; [reflexivity | apply IH]. Qed.

Lemma consecutive_pairs a (l : list MouseSample) :
  map (fun i => (nth (i - 1) (a :: l) noSample, nth i (a :: l) noSample))
      (seq 1 (List.length l))
  = combine (a :: l) l.
Proof.
  revert a. induction l as [|b l IH]; intro a; [reflexivity|].
  cbn [List.length seq map]. cbn [Nat.sub nth].
  change (combine (a :: b :: l) (b :: l)) with ((a, b) :: combine (b :: l) l).
  f_equal.
  rewrite <- seq_shift, map_map. rewrite <- (IH b).
  apply map_ext_in. intros i Hi. apply in_seq in Hi.
  destruct i as [|i]; [lia|]. cbn [Nat.sub nth]. now rewrite Nat.sub_0_r.
Qed.

(** X8.  With at least two retained samples, the reported total distance is
    the length of the path through them: the Euclidean distances between
    consecutive samples, added up from the oldest pair on.  It is the same
    whatever [Math.atan2] returns. *)
Theorem total_distance_is_path_length :
  forall (s : BehaviorTracker),
    (2 <= List.length (mousePositions s))%nat ->
    prop (eval (getMouseMovementEntropy atan2) s) "totalDistance"
    = VNum (pathLength (mousePositions s)).
Proof.
  intros s H. unfold eval, getMouseMovementEntropy, bind, gets.
  apply Nat.ltb_ge in H. rewrite H.
  pose proof (mouseStep_distance (mousePositions s)
                (seq 1 (List.length (mousePositions s) - 1)) 0%float 0%float) as Hd.
  destruct (fold_left (mouseStep atan2 (mousePositions s)) _ _) as [d a].
  cbn [fst] in Hd. cbn. f_equal. rewrite Hd. unfold pathLength.
  destruct (mousePositions s) as [|p l]; [reflexivity|].
  cbn [List.length tl].
  replace (S (List.length l) - 1)%nat with (List.length l) by lia.
  rewrite <- consecutive_pairs.
  now rewrite fold_left_over_map.
Qed.

End TrackerFeatures.

(* ------------------------------------------------------------------ *)
(** ** Further properties of the decision gate *)

Section GateFurther.
Import Js Checkout.

(** *** Comparisons of binary64 numbers *)

Import SpecFloat FloatOps.

Lemma SFcompare_refl x :
  x <> S754_nan -> SFcompare x x = Some Eq.
Proof.
  destruct x as [s | s | | s m e]; intro H; cbn.
  - reflexivity.
  - now destruct s.
  - now contradiction H.
  - destruct s; rewrite Z.compare_refl, Pos.compare_cont_refl; reflexivity.
Qed.

(** A number that compares as smaller or greater than another is not NaN. *)
Lemma ltb_is_not_nan a c :
  ((a <? c)%float = true -> is_nan c = false)
  /\ ((c <? a)%float = true -> is_nan c = false).
Proof.
  unfold is_nan. rewrite !FloatAxioms.ltb_spec, FloatAxioms.eqb_spec. unfold SFltb, SFeqb.
  split; intro H;
    (destruct (Prim2SF c) eqn:E;
     [ .. | rewrite SFcompare_refl by discriminate; reflexivity ];
     try (rewrite SFcompare_refl by discriminate; reflexivity));
    destruct (Prim2SF a); cbn in H; discriminate H.
Qed.

(** A number greater than [0.7] is truthy. *)
Lemma above_0_7_truthy c :
  (c0_7 <? c)%float = true -> truthy (VNum c) = true.
Proof.
  intro H. unfold truthy. rewrite (proj1 (ltb_is_not_nan c0_7 c) H). cbn [negb].
  rewrite andb_true_r. rewrite FloatAxioms.ltb_spec in H. rewrite FloatAxioms.eqb_spec.
  unfold SFltb, SFeqb in *.
  replace (Prim2SF c0_7) with (S754_finite false 6305039478318694 (-53)) in H
    by (vm_compute; reflexivity).
  replace (Prim2SF 0) with (S754_zero false) by (vm_compute; reflexivity).
  destruct (Prim2SF c) as [s | s | | s m e]; cbn in *; try discriminate H;
    destruct s; reflexivity.
Qed.

(** A number that is truthy is not NaN. *)
Lemma truthy_is_number x : truthy (VNum x) = true -> is_number (VNum x) = true.
Proof.
  unfold truthy, is_number. intro H. apply andb_prop in H. tauto.
Qed.

(** [result.confidence && result.confidence > 0.7], as a boolean. *)
Lemma confidence_above r :
  truthy (and_then (field (confidence r)) (confidence_gt r c0_7))
  = match confidence r with
    | Some c => (c0_7 <? c)%float
    | None => false
    end.
Proof.
  unfold and_then, confidence_gt. destruct (confidence r) as [c|]; [|reflexivity].
  cbn [field]. destruct (truthy (VNum c)) eqn:E; [reflexivity|].
  rewrite E. destruct (c0_7 <? c)%float eqn:L; [|reflexivity].
  now rewrite (above_0_7_truthy c L) in E.
Qed.

(** [result.confidence && result.confidence < 0.3], as a boolean: a
    confidence of zero is falsy, and does not count as low. *)
Lemma confidence_below r :
  truthy (and_then (field (confidence r)) (confidence_lt r c0_3))
  = match confidence r with
    | Some c => (c <? c0_3)%float && negb (c =? 0)%float
    | None => false
    end.
Proof.
  unfold and_then, confidence_lt. destruct (confidence r) as [c|]; [|reflexivity].
  cbn [field]. destruct (truthy (VNum c)) eqn:E.
  - cbn [truthy] in *. apply andb_prop in E. destruct E as [E _].
    rewrite E. now rewrite andb_true_r.
  - rewrite E. destruct (c <? c0_3)%float eqn:L; [|reflexivity].
    cbn [truthy] in E. rewrite (proj2 (ltb_is_not_nan c0_3 c) L) in E.
    cbn [negb] in *. rewrite andb_true_r in E. now rewrite E.
Qed.

Lemma runAIAnalysis_ok_status r cells :
  aiSecurityStatus (runAIAnalysis (Ok r) cells)
  = if is_string (prediction r) "human"
       || match confidence r with Some c => (c0_7 <? c)%float | None => false end
    then passed
    else if is_string (prediction r) "bot"
            || match confidence r with
               | Some c => (c <? c0_3)%float && negb (c =? 0)%float
               | None => false
               end
    then flagged else analyzing.
Proof.
  unfold runAIAnalysis. rewrite confidence_above, confidence_below.
  repeat case_if; reflexivity.
Qed.

Lemma readsHuman_bool r :
  readsHuman r <->
  is_string (prediction r) "human"
  || match confidence r with Some c => (c0_7 <? c)%float | None => false end = true.
Proof.
  unfold readsHuman. rewrite orb_true_iff. split; intros [H | H]; auto.
  - destruct H as (c & -> & H). now right.
  - destruct (confidence r) as [c|]; [|discriminate H]. right. now exists c.
Qed.

Lemma readsBot_bool r :
  readsBot r <->
  is_string (prediction r) "bot"
  || match confidence r with
     | Some c => (c <? c0_3)%float && negb (c =? 0)%float
     | None => false
     end = true.
Proof.
  unfold readsBot. rewrite orb_true_iff. split; intros [H | H]; auto.
  - destruct H as (c & -> & H1 & H2). right. now rewrite H1, H2.
  - destruct (confidence r) as [c|]; [|discriminate H]. right. exists c.
    apply andb_prop in H. destruct H as [H1 H2].
    repeat split; try assumption. now destruct (c =? 0)%float.
Qed.

(** X9.  The verdict of an analysis that was answered depends on the answer
    alone, not on what the gate was before.  It is [passed] exactly when the
    label is 'human' or the confidence is above 0.7 (so a 'bot' label with a
    confidence above 0.7 passes); otherwise it is [flagged] exactly when the
    label is 'bot' or the confidence is below 0.3 and not zero; otherwise it
    is [analyzing]. *)
Theorem verdict_of_an_answer :
  forall (r : Result) (cells cells' : Cells),
    let verdict := aiSecurityStatus (runAIAnalysis (Ok r) cells) in
    verdict = aiSecurityStatus (runAIAnalysis (Ok r) cells')
    /\ (verdict = passed <-> readsHuman r)
    /\ (verdict = flagged <-> ~ readsHuman r /\ readsBot r)
    /\ (verdict = analyzing <-> ~ readsHuman r /\ ~ readsBot r).
Proof.
  intros r cells cells' verdict. subst verdict.
  rewrite !runAIAnalysis_ok_status, readsHuman_bool, readsBot_bool.
  destruct (_ || _); destruct (_ || _);
    repeat split; try congruence; try tauto;
    intros; try discriminate; intuition congruence.
Qed.

(** X10.  An analysis writes the status and the score and nothing else: the
    payment method, the payment details and the behaviour counters are as
    they were.  An answered analysis stores as the score the confidence of
    the reply when there is one and it is truthy, else its trust score when
    there is one and it is truthy, else 0; an analysis that is not answered
    leaves the score as it was. *)
Theorem analysis_writes_status_and_score :
  forall (a : answer) (r : Result) (cells : Cells),
    paymentMethod (runAIAnalysis a cells) = paymentMethod cells
    /\ paymentInfo (runAIAnalysis a cells) = paymentInfo cells
    /\ behaviorData (runAIAnalysis a cells) = behaviorData cells
    /\ securityScore (runAIAnalysis (Ok r) cells)
       = (if given (confidence r) then field (confidence r)
          else if given (trust_score r) then field (trust_score r)
          else VNum 0%float)
    /\ ((forall r', a <> Ok r') ->
          securityScore (runAIAnalysis a cells) = securityScore cells).
Proof.
  intros a r cells. repeat split.
  1-3: destruct a; cbn; try reflexivity; repeat case_if; reflexivity.
  - assert (Hs : securityScore (runAIAnalysis (Ok r) cells)
                 = or_else (or_else (field (confidence r)) (field (trust_score r)))
                           (VNum 0%float)).
    { unfold runAIAnalysis. repeat case_if; reflexivity. }
    rewrite Hs. unfold or_else, given.
    destruct (confidence r) as [c|], (trust_score r) as [t|]; cbn [field];
      repeat (case_if; try reflexivity); cbn in *; congruence.
  - intro H. destruct a; try reflexivity. now contradiction (H result).
Qed.

(** X11.  A submission from a flagged page is refused with the security
    alert, whatever the payment details are (they are not looked at) and
    without a final analysis: no cell changes.  The flag is not final: a
    periodic analysis whose [fetch] or [json()] throws puts the gate back to
    [analyzing], and the next submission, when the payment details are
    valid, completes. *)
Theorem flagged_blocks_until_an_analysis_throws :
  forall (cells : Cells) (a a' : answer),
    aiSecurityStatus cells = flagged ->
    a' = FetchThrows \/ a' = JsonThrows ->
    submit a cells = (Alert securityAlert, cells)
    /\ (validation (paymentMethod cells) (paymentInfo cells) = None ->
          exists payload,
            fst (submit a (step cells (Tick a'))) = Complete payload
            /\ status (securityCheck payload) = analyzing).
Proof.
  intros cells a a' Hf Ha. split.
  - unfold submit, handleSubmit. rewrite Hf. reflexivity.
  - intro Hv.
    assert (Hc : step cells (Tick a') = setAiSecurityStatus analyzing cells)
      by (destruct Ha as [-> | ->]; reflexivity).
    rewrite Hc. unfold submit.
    destruct (handleSubmit_completes (setAiSecurityStatus analyzing cells) a
                (setAiSecurityStatus analyzing cells))
      as (payload & H1 & H2 & _); [discriminate | exact Hv |].
    exists payload. rewrite H1. split; [reflexivity | exact H2].
Qed.

(** X12.  The payment details pass the validation exactly when: for a credit
    card, the number, the name, the expiry date and the CVV are all
    non-empty; for a bank transfer, a bank is chosen; for an e-wallet, the
    phone number is non-empty.  Any other payment method passes without a
    check. *)
Theorem validation_passes_iff :
  forall (m : string) (i : PaymentInfo),
    validation m i = None <->
    (m = "credit-card" ->
       cardNumber i <> "" /\ cardName i <> "" /\ expiryDate i <> "" /\ cvv i <> "")
    /\ (m = "bank-transfer" -> bankName i <> "")
    /\ (m = "ewallet" -> ewalletPhone i <> "").
Proof.
  intros m i. unfold validation, empty.
  destruct (String.eqb_spec m "credit-card") as [-> | H1].
  - destruct (String.eqb_spec (cardNumber i) ""), (String.eqb_spec (cardName i) ""),
      (String.eqb_spec (expiryDate i) ""), (String.eqb_spec (cvv i) "");
      cbn [orb];
      (split;
       [ first [ discriminate
               | intros _; split;
                 [ intros _; repeat split; assumption
                 | split; intro Hd; discriminate Hd ] ]
       | first [ intros _; reflexivity
               | intros (H & _); destruct (H eq_refl) as (? & ? & ? & ?); contradiction ] ]).
  - destruct (String.eqb_spec m "bank-transfer") as [-> | H2].
    + destruct (String.eqb_spec (bankName i) "");
        (split;
         [ first [ discriminate
                 | intros _; split; [intro Hd; discriminate Hd|];
                   split; [intros _; assumption | intro Hd; discriminate Hd] ]
         | first [ intros _; reflexivity
                 | intros (_ & H & _); specialize (H eq_refl); contradiction ] ]).
    + destruct (String.eqb_spec m "ewallet") as [-> | H3].
      * destruct (String.eqb_spec (ewalletPhone i) "");
          (split;
           [ first [ discriminate
                   | intros _; split; [intro Hd; discriminate Hd|];
                     split; [intro Hd; discriminate Hd | intros _; assumption] ]
           | first [ intros _; reflexivity
                   | intros (_ & _ & H); specialize (H eq_refl); contradiction ] ]).
      * split; [|reflexivity]. intros _. repeat split; intro; contradiction.
Qed.

(** X13.  An input event stores the details that its render had read with
    the one field replaced, and adds one to the interaction counter; it
    touches neither the status nor the score.  Two input handlers created by
    the same render that run one after the other leave only the second
    change in the details, while the counter counts both. *)
Theorem input_changes_are_built_from_the_render :
  forall (render cells : Cells) (f1 v1 f2 v2 : string),
    let once := handleInputChange render f1 v1 cells in
    let twice := handleInputChange render f2 v2 once in
    paymentInfo once = withField (paymentInfo render) f1 v1
    /\ formInteractions (behaviorData once) = formInteractions (behaviorData cells) + 1
    /\ aiSecurityStatus once = aiSecurityStatus cells
    /\ securityScore once = securityScore cells
    /\ paymentInfo twice = withField (paymentInfo render) f2 v2
    /\ formInteractions (behaviorData twice) = formInteractions (behaviorData cells) + 2.
Proof.
  intros render cells f1 v1 f2 v2 once twice. subst once twice.
  cbn. repeat split. lia.
Qed.

Lemma validation_credit_card i :
  cardNumber i <> "" -> cardName i <> "" -> expiryDate i <> "" -> cvv i <> "" ->
  validation "credit-card" i = None.
Proof.
  intros H1 H2 H3 H4. unfold validation, empty. cbn [String.eqb Ascii.eqb Bool.eqb].
  apply String.eqb_neq in H1, H2, H3, H4. now rewrite H1, H2, H3, H4.
Qed.

(** X14.  On a page that is not flagged and pays by credit card, typing the
    four card fields (each handler created by the render that follows the
    previous change) and then submitting completes, whatever the final
    analysis answers, and the completion carries the four values typed. *)
Theorem card_entry_then_submit_completes :
  forall (cells : Cells) (number name expiry code : string) (a : answer),
    paymentMethod cells = "credit-card" ->
    aiSecurityStatus cells <> flagged ->
    number <> "" -> name <> "" -> expiry <> "" -> code <> "" ->
    let typed := input "cvv" code (input "expiryDate" expiry
                   (input "cardName" name (input "cardNumber" number cells))) in
    exists payload,
      fst (submit a typed) = Complete payload
      /\ cardNumber (c_paymentInfo payload) = number
      /\ cardName (c_paymentInfo payload) = name
      /\ expiryDate (c_paymentInfo payload) = expiry
      /\ cvv (c_paymentInfo payload) = code.
Proof.
  intros cells number name expiry code a Hm Hs Hn Hna He Hc typed.
  assert (Hi : paymentInfo typed
               = mkPaymentInfo number name expiry code (bankName (paymentInfo cells))
                   (virtualAccount (paymentInfo cells)) (ewalletPhone (paymentInfo cells)))
    by reflexivity.
  assert (Hv : validation (paymentMethod typed) (paymentInfo typed) = None).
  { replace (paymentMethod typed) with (paymentMethod cells) by reflexivity.
    rewrite Hm, Hi. now apply validation_credit_card. }
  unfold submit. unfold handleSubmit.
  replace (aiSecurityStatus typed) with (aiSecurityStatus cells) by reflexivity.
  rewrite Hv.
  destruct (aiSecurityStatus cells) eqn:E; try congruence; cbn [status_eqb fst];
    eexists; (split; [reflexivity|]); rewrite Hi; cbn; auto.
Qed.

Lemma handle_gate e cells :
  aiSecurityStatus (handle cells e) = aiSecurityStatus cells
  /\ securityScore (handle cells e) = securityScore cells
  /\ paymentMethod (handle cells e) = paymentMethod cells
  /\ startTime (behaviorData (handle cells e)) = startTime (behaviorData cells).
Proof. destruct e; repeat split. Qed.

Lemma handle_counters e cells :
  let b := behaviorData cells in
  let b' := behaviorData (handle cells e) in
  clicks b' = clicks b + (if isClick e then 1 else 0)
  /\ keystrokes b' = keystrokes b + (if isKeydownEvent e then 1 else 0)
  /\ mouseMovements b' = mouseMovements b + (if isMouseMove e then 1 else 0)
  /\ scrollEvents b' = scrollEvents b + (if isScroll e then 1 else 0)
  /\ formInteractions b' = formInteractions b + (if isInput e then 1 else 0).
Proof. destruct e; cbn; repeat split; lia. Qed.

(** X16.  After any sequence of page events, each of the five behaviour
    counters has grown by the number of events of its kind, the start time
    is as it was, and the gate (status and score) is untouched: no page
    event other than an analysis moves the gate. *)
Theorem behaviour_counters_count_events :
  forall (es : list uiEvent) (cells : Cells),
    let after := fold_left handle es cells in
    let b := behaviorData cells in
    let b' := behaviorData after in
    clicks b' = clicks b + occurrences isClick es
    /\ keystrokes b' = keystrokes b + occurrences isKeydownEvent es
    /\ mouseMovements b' = mouseMovements b + occurrences isMouseMove es
    /\ scrollEvents b' = scrollEvents b + occurrences isScroll es
    /\ formInteractions b' = formInteractions b + occurrences isInput es
    /\ startTime b' = startTime b
    /\ aiSecurityStatus after = aiSecurityStatus cells
    /\ securityScore after = securityScore cells.
Proof.
  induction es as [|e es IH] using rev_ind; intros cells after b b'; subst after b b'.
  - unfold occurrences. cbn. repeat split; lia.
  - rewrite fold_left_app. cbn [fold_left].
    specialize (IH cells). cbv zeta in IH.
    destruct IH as (I1 & I2 & I3 & I4 & I5 & I6 & I7 & I8).
    destruct (handle_gate e (fold_left handle es cells)) as (G1 & G2 & _ & G4).
    pose proof (handle_counters e (fold_left handle es cells)) as C. cbv zeta in C.
    destruct C as (C1 & C2 & C3 & C4 & C5).
    unfold occurrences in *. rewrite !filter_app, !length_app, !Nat2Z.inj_add.
    cbn [filter].
    repeat split; try congruence;
      destruct e; cbn [isClick isKeydownEvent isMouseMove isScroll isInput List.length] in *;
      lia.
Qed.

End GateFurther.

(* ------------------------------------------------------------------ *)
(** ** Further properties of the ingestion endpoint *)

Section RouteFurther.
Import Js Route.

Variable insert : Js.value -> inserted.

(** X17.  A request is refused without touching the table when its body
    cannot be parsed or is [null] (500, 'server_error'), and when it has no
    [user_id] or a falsy one, such as the empty string or 0 (400, 'Missing
    user_id'); a body that is not an object has no [user_id]. *)
Theorem POST_refuses_without_inserting :
  forall (b : Js.value),
    POST insert Malformed = (None, failure (VStr "server_error") 500)
    /\ POST insert (Parsed VNull) = (None, failure (VStr "server_error") 500)
    /\ (b <> VNull -> b <> VUndefined -> truthy (prop b "user_id") = false ->
          POST insert (Parsed b) = (None, failure (VStr "Missing user_id") 400))
    /\ ((forall fields, b <> VObj fields) -> fst (POST insert (Parsed b)) = None).
Proof.
  intro b. repeat split.
  - intros H1 H2 Hu. unfold POST.
    destruct b; try contradiction; now rewrite Hu.
  - intro H. destruct b; try reflexivity. now contradiction (H fields).
Qed.

(** X18.  The handler answers 200 exactly when it handed a row to the table
    and the table returned data; the [success] flag of the payload is [true]
    exactly then; and the status is always 200, 400 or 500.  A row is handed
    to the table exactly when the body is an object (or another non-null
    value) with a truthy [user_id]. *)
Theorem POST_status_and_success :
  forall (req : body),
    let out := POST insert req in
    (status (snd out) = 200
       <-> exists r data, fst out = Some r /\ insert r = DbData data)
    /\ (prop (payload (snd out)) "success" = VBool true <-> status (snd out) = 200)
    /\ (status (snd out) = 200 \/ status (snd out) = 400 \/ status (snd out) = 500)
    /\ (fst out <> None
          <-> exists b, req = Parsed b /\ truthy (prop b "user_id") = true).
Proof.
  intros req out. subst out.
  destruct req as [|b].
  { cbn. repeat split; try (intro; discriminate); try tauto; auto.
    - intros (r & d & H & _). discriminate H.
    - intros (b & H & _). discriminate H. }
  assert (Hu : truthy (prop b "user_id") = false -> POST insert (Parsed b)
               = (None, match b with
                        | VNull | VUndefined => failure (VStr "server_error") 500
                        | _ => failure (VStr "Missing user_id") 400
                        end)).
  { intro Hu. unfold POST. destruct b; try reflexivity; now rewrite Hu. }
  destruct (truthy (prop b "user_id")) eqn:E.
  - assert (Hb : POST insert (Parsed b)
                 = let r := row (prop b "user_id") (rest b) in
                   match insert r with
                   | DbError message => (Some r, failure message 500)
                   | DbData data =>
                       (Some r,
                        mkResponse 200 (VObj [("success", VBool true); ("data", data)]))
                   | DbThrows => (Some r, failure (VStr "server_error") 500)
                   end).
    { unfold POST. destruct b; try discriminate E; now rewrite E. }
    rewrite Hb. cbv zeta.
    destruct (insert (row (prop b "user_id") (rest b))) eqn:Ei; cbn;
      repeat split; try (intro; discriminate); try tauto; auto;
      try (intros (r & d & [= <-] & H); congruence);
      try (intros _; eauto).
  - rewrite (Hu eq_refl).
    destruct b; cbn; repeat split; try (intro; discriminate); try tauto; auto;
      try (intros (r & d & H & _); discriminate H);
      try (intros (b' & [= <-] & H); congruence).
Qed.

(** X19.  The row handed to the table has exactly the eleven columns, in a
    fixed order, whatever the body holds: properties of the body with other
    names are never stored.  The [user_id] is stored as it came, and so is
    every truthy value supplied for a column, whatever its type. *)
Theorem POST_row_shape :
  forall (fields : list (string * Js.value)) (k : string),
    truthy (prop (VObj fields) "user_id") = true ->
    exists r,
      fst (POST insert (Parsed (VObj fields))) = Some r
      /\ keys r = columns
      /\ prop r "user_id" = prop (VObj fields) "user_id"
      /\ (In k columns -> truthy (prop (VObj fields) k) = true ->
            prop r k = prop (VObj fields) k)
      /\ (~ In k columns -> prop r k = VUndefined).
Proof.
  intros fields k Hu.
  exists (row (prop (VObj fields) "user_id") (rest (VObj fields))).
  split; [now apply POST_row|]. split; [reflexivity|]. split; [reflexivity|].
  split.
  - intros Hin Ht. cbn [In columns] in Hin.
    destruct Hin as [<- | Hin]; [reflexivity|].
    repeat (destruct Hin as [<- | Hin];
            [ cbn [row prop lookup String.eqb Ascii.eqb Bool.eqb];
              rewrite prop_rest by discriminate;
              unfold or_else; now rewrite Ht |]).
    contradiction.
  - intro Hn. unfold row. cbn [prop lookup].
    repeat (match goal with
            | |- context [String.eqb k ?c] =>
                destruct (String.eqb_spec k c) as [-> | ?];
                [ exfalso; apply Hn; cbn; tauto |]
            end).
    reflexivity.
Qed.

End RouteFurther.

(* ------------------------------------------------------------------ *)
(** ** From the recorder to the table *)

Section ExportToTable.
Import Js Tracker Route.

Variable atan2 : float -> float -> float.
Variable insert : Js.value -> inserted.

(** X20.  When the export of a recorder with fewer than two key-down events
    and fewer than two pointer samples is posted with a non-empty user
    identifier, the row handed to the table carries that identifier, [null]
    for the three keystroke statistics and the two mouse features, and 0 for
    [ktp_paste_detected]: the zeros of the export are stored as missing
    values. *)
Theorem export_of_idle_session_is_stored_with_nulls :
  forall (s : BehaviorTracker) (now : Z) (uid : string),
    uid <> "" ->
    (List.length (keydowns s) < 2)%nat ->
    (List.length (mousePositions s) < 2)%nat ->
    exists r,
      fst (POST insert (Parsed (withUserId uid (eval (exportForML atan2 now) s)))) = Some r
      /\ prop r "user_id" = VStr uid
      /\ prop r "ktp_avg_keystroke_interval_ms" = VNull
      /\ prop r "ktp_keystroke_variance" = VNull
      /\ prop r "ktp_total_entry_time_ms" = VNull
      /\ prop r "ktp_paste_detected" = VNum 0%float
      /\ prop r "mouse_total_distance" = VNull
      /\ prop r "mouse_smoothness" = VNull.
Proof.
  intros s now uid Hu Hk Hm.
  rewrite exportForML_eval, (dynamics_few_keydowns s Hk),
    (entropy_few_samples atan2 s Hm).
  cbv zeta. cbn [withUserId].
  eexists. split.
  - apply POST_row. cbn. apply String.eqb_neq in Hu. now rewrite Hu.
  - repeat split.
Qed.

End ExportToTable.

(* ------------------------------------------------------------------ *)
(** ** The further properties at concrete sessions *)

Section FurtherTrackerInstances.
Import Js Tracker.


(** In the sessions below that hold three pointer samples the result read
    is the total distance, which does not involve [Math.atan2]. *)
Let atan2 : float -> float -> float := fun _ _ => 0%float.

(** Two sessions that type at the same instants, in different fields and
    with key-up events in one of them only. *)
Let typedOne : BehaviorTracker :=
  run [ KTPKeystroke 5000 "ktp" "keydown" "3";
        KTPKeystroke 5003 "ktp" "keyup" "3";
        KTPKeystroke 5120 "ktp" "keydown" "32";
        KTPKeystroke 5300 "ktp" "keydown" "320" ]
      (constructor 1000).
Let typedTwo : BehaviorTracker :=
  run [ KTPKeystroke 5000 "name" "keydown" "A";
        KTPKeystroke 5120 "ktp" "keydown" "3";
        KTPKeystroke 5300 "phone" "keydown" "0" ]
      (constructor 2000).

(** X4 at these two sessions. *)
Lemma dynamics_depend_on_keydown_times_and_paste_witness :
  map timestamp (keydowns typedOne) = map timestamp (keydowns typedTwo)
  /\ eval getKTPKeystrokeDynamics typedOne = eval getKTPKeystrokeDynamics typedTwo.
Proof.
  assert (H : map timestamp (keydowns typedOne) = map timestamp (keydowns typedTwo))
    by reflexivity.
  split; [exact H|].
  apply (dynamics_depend_on_keydown_times_and_paste typedOne typedTwo H).
  reflexivity.
Defined.

(** Two pointer samples, and three. *)
Let twoSamples : BehaviorTracker :=
  run [ MouseMovement 2000 0%float 0%float; MouseMovement 2016 3%float 4%float ]
      (constructor 1000).
Let threeSamples : BehaviorTracker :=
  run [ MouseMovement 2000 0%float 0%float; MouseMovement 2016 3%float 4%float;
        MouseMovement 2032 3%float 16%float ]
      (constructor 1000).

(** X6 at the session of two samples, whose smoothness is NaN before the
    export. *)
Lemma export_guarded_fields_are_numbers_witness :
  In "mouse_smoothness" guardedFields
  /\ is_number (prop (eval (getMouseMovementEntropy atan2) twoSamples) "smoothness")
     = false
  /\ is_number (prop (eval (exportForML atan2 9000) twoSamples) "mouse_smoothness")
     = true.
Proof.
  assert (H : In "mouse_smoothness" guardedFields) by (cbn; tauto).
  split; [exact H|]. split; [reflexivity|].
  apply (export_guarded_fields_are_numbers atan2 twoSamples 9000 "mouse_smoothness" H).
Defined.

(** X7 at a session of 130 samples and the session of its last 100. *)
Lemma entropy_depends_on_last_100_samples_witness :
  let move := fun i => MouseMovement (2000 + Z.of_nat i) (float_of_Z (Z.of_nat i)) 0%float in
  let long := Click :: map move (seq 0 130) in
  let short := map move (seq 30 100) in
  lastn 100 (samplesOf long) = lastn 100 (samplesOf short)
  /\ eval (getMouseMovementEntropy atan2) (run long (constructor 1000))
     = eval (getMouseMovementEntropy atan2) (run short (constructor 1500)).
Proof.
  intros move long short.
  assert (H : lastn 100 (samplesOf long) = lastn 100 (samplesOf short))
    by (vm_compute; reflexivity).
  split; [exact H|].
  apply (entropy_depends_on_last_100_samples atan2 1000 1500 long short H).
Defined.

(** X8 at the session of three samples: 5 from (0,0) to (3,4), and 12 from
    (3,4) to (3,16). *)
Lemma total_distance_is_path_length_witness :
  (2 <= List.length (mousePositions threeSamples))%nat
  /\ pathLength (mousePositions threeSamples) = 17%float
  /\ prop (eval (getMouseMovementEntropy atan2) threeSamples) "totalDistance"
     = VNum 17%float.
Proof.
  assert (H : (2 <= List.length (mousePositions threeSamples))%nat)
    by (vm_compute; lia).
  assert (Hp : pathLength (mousePositions threeSamples) = 17%float)
    by (vm_compute; reflexivity).
  split; [exact H|]. split; [exact Hp|].
  rewrite <- Hp. apply (total_distance_is_path_length atan2 threeSamples H).
Defined.

End FurtherTrackerInstances.

Section FurtherGateInstances.
Import Js Checkout.

(** The page of [cardFilled] once an analysis has flagged it, and the first
    render, whose card fields are empty, flagged. *)
Let flaggedPage : Cells := setAiSecurityStatus flagged cardFilled.
Let flaggedEmpty : Cells := setAiSecurityStatus flagged (initial 1000).

(** X11 at these pages: the empty form gets the security alert, not the
    alert of the validation. *)
Lemma flagged_blocks_until_an_analysis_throws_witness :
  aiSecurityStatus flaggedEmpty = flagged
  /\ validation (paymentMethod flaggedEmpty) (paymentInfo flaggedEmpty)
     = Some "Please fill in all card details"
  /\ submit botAnswer flaggedEmpty = (Alert securityAlert, flaggedEmpty)
  /\ validation (paymentMethod flaggedPage) (paymentInfo flaggedPage) = None
  /\ exists payload,
       fst (submit botAnswer (step flaggedPage (Tick FetchThrows))) = Complete payload
       /\ status (securityCheck payload) = analyzing.
Proof.
  pose proof (flagged_blocks_until_an_analysis_throws flaggedEmpty botAnswer FetchThrows
                eq_refl (or_introl eq_refl)) as [T1 _].
  pose proof (flagged_blocks_until_an_analysis_throws flaggedPage botAnswer FetchThrows
                eq_refl (or_introl eq_refl)) as [_ T2].
  repeat split; try assumption. exact (T2 eq_refl).
Defined.

(** X14 from the first render. *)
Lemma card_entry_then_submit_completes_witness :
  paymentMethod (initial 1000) = "credit-card"
  /\ aiSecurityStatus (initial 1000) <> flagged
  /\ exists payload,
       fst (submit botAnswer
              (input "cvv" "123" (input "expiryDate" "12/29"
                 (input "cardName" "A Passenger"
                    (input "cardNumber" "4111111111111111" (initial 1000))))))
       = Complete payload
       /\ cardNumber (c_paymentInfo payload) = "4111111111111111".
Proof.
  assert (Hs : aiSecurityStatus (initial 1000) <> flagged) by discriminate.
  split; [reflexivity|]. split; [exact Hs|].
  destruct (card_entry_then_submit_completes (initial 1000)
              "4111111111111111" "A Passenger" "12/29" "123" botAnswer eq_refl Hs)
    as (payload & H1 & H2 & _); try discriminate.
  exists payload. split; assumption.
Defined.

End FurtherGateInstances.

Section FurtherRouteInstances.
Import Js Tracker Route.

Let atan2 : float -> float -> float := fun _ _ => 0%float.
Let insert : Js.value -> inserted := fun r => DbData (VObj [("id", VNum 1%float)]).

(** X19 at a request with a text where a number is expected and with a
    property that is no column. *)
Lemma POST_row_shape_witness :
  let fields :=
    [ ("user_id", VStr "user-1"); ("total_clicks", VStr "many");
      ("is_suspicious", VBool true) ] in
  truthy (prop (VObj fields) "user_id") = true
  /\ exists r,
       fst (POST insert (Parsed (VObj fields))) = Some r
       /\ keys r = columns
       /\ prop r "total_clicks" = VStr "many".
Proof.
  intro fields.
  assert (H : truthy (prop (VObj fields) "user_id") = true) by reflexivity.
  split; [exact H|].
  destruct (POST_row_shape insert fields "total_clicks" H) as (r & H1 & H2 & _ & H4 & _).
  exists r. repeat split; try assumption.
  apply H4; [cbn; tauto | reflexivity].
Defined.

(** X20 at a session of one click. *)
Lemma export_of_idle_session_is_stored_with_nulls_witness :
  let s := run [Click] (constructor 1000) in
  "user-1" <> ""
  /\ (List.length (keydowns s) < 2)%nat
  /\ (List.length (mousePositions s) < 2)%nat
  /\ exists r,
       fst (POST insert (Parsed (withUserId "user-1" (eval (exportForML atan2 1900) s))))
       = Some r
       /\ prop r "ktp_keystroke_variance" = VNull
       /\ prop r "mouse_smoothness" = VNull.
Proof.
  intro s.
  assert (Hu : "user-1" <> "") by discriminate.
  assert (Hk : (List.length (keydowns s) < 2)%nat) by (vm_compute; lia).
  assert (Hm : (List.length (mousePositions s) < 2)%nat) by (vm_compute; lia).
  repeat split; try assumption.
  destruct (export_of_idle_session_is_stored_with_nulls atan2 insert s 1900 "user-1"
              Hu Hk Hm) as (r & H1 & _ & _ & H4 & _ & _ & _ & H8).
  exists r. repeat split; assumption.
Defined.

End FurtherRouteInstances.
